(** * Dimension selector: a shallow embedding of [src/main.py]

    First the library functions that the program calls ([str] methods,
    [float], the text file and the [csv] readers), then the program in the
    order of the source file: the record type [EntryRow], the catalog
    loader [load_type_rows], the length parser [parse_length_to_meters] and
    the selection engine [select_best], then the listing [list_types] and
    the handler [App.on_calculate]; then the properties.  The rest of the
    window code (layout, fonts, styles) is not modelled; of the texts that
    the handler shows, the formatting of a float is left as a piece.

    Conventions.
    - A Python [float] is an IEEE 754 binary64 number: Rocq's primitive
      [float], with the primitive operations standing for [*], [+], [/]
      and the comparisons ([>=] on a NaN is false in both).
    - A Python [str] is a [string] holding its UTF-8 encoding.  Searching
      and replacing a well-formed pattern commute with that encoding.
    - Code that can raise returns a [Result]; [try]/[except] is a match on it.
    - A [dict] is an association list in insertion order, because
      [header_map.items()] is iterated.
    - What the interpreter and its host supply from tables that are not
      part of the program (the Unicode character database behind
      [str.strip], [str.lower] and [float], the path syntax, the directory
      of the script) is gathered in the class [Runtime]; general theorems
      hold for every runtime, examples are evaluated in [posix_ascii].
    - A file is the text that decoding it yields; decoding errors and the
      limits of memory are not modelled.  The field size limit of the csv
      reader is. *)

From Stdlib Require Import List String Ascii Bool ZArith Lia Sorted.
From Stdlib Require Import Permutation.
From Stdlib Require Import Uint63 PrimFloat FloatOps SpecFloat FloatAxioms.
Import ListNotations.
Local Open Scope string_scope.
Local Open Scope list_scope.

(** ** Exceptions and results *)

Module Py.

(** The argument of a [KeyError]: the key of a failed dict lookup, or the
    message built in [get], the f-string
    [Spalte '{logical}' nicht gefunden. Vorhandene: {list(header_map.values())}],
    of which the two interpolated values are kept. *)
Inductive key_error_arg : Type :=
| MissingKey (k : string)
| ColumnNotFound (logical : string) (present : list string).

(** The exceptions the modelled code can raise.  A [ValueError] of
    [float()] carries the text that did not parse. *)
Inductive exn : Type :=
| IndexError
| AttributeError (attr : string)
| KeyError (arg : key_error_arg)
| ValueError (text : string)
| csv_Error (msg : string).

Inductive Result (A : Type) : Type :=
| Ok (a : A)
| Raise (e : exn).
Arguments Ok {A} a.
Arguments Raise {A} e.

Definition bind {A B} (m : Result A) (k : A -> Result B) : Result B :=
  match m with
  | Ok a => k a
  | Raise e => Raise e
  end.

(** [xs[i]] on a list. *)
Definition index {A} (xs : list A) (i : nat) : Result A :=
  match nth_error xs i with
  | Some x => Ok x
  | None => Raise IndexError
  end.

(** [str(v)] for a value that is a [str] or [None]. *)
Definition str (v : option string) : string :=
  match v with
  | Some s => s
  | None => "None"
  end.

End Py.
Export Py.

Declare Scope py_scope.
Notation "x <- m ;; k" := (bind m (fun x => k))
  (at level 61, m at next level, right associativity) : py_scope.
Local Open Scope py_scope.

(** ** [str] methods *)

Module Str.

Definition LF : ascii := "010"%char.
Definition CR : ascii := "013"%char.
Definition QUOTE : ascii := "034"%char.

Definition between (lo hi : nat) (c : ascii) : bool :=
  let n := nat_of_ascii c in Nat.leb lo n && Nat.leb n hi.

Fixpoint intersperse (sep s : string) : string :=
  match s with
  | EmptyString => EmptyString
  | String c s' => String c (sep ++ intersperse sep s')
  end.

(** [s.replace(old, new)], left to right over non-overlapping matches;
    [skip] counts the characters of a match still to be dropped. *)
Fixpoint replace_from (old new : string) (skip : nat) (s : string) : string :=
  match s with
  | EmptyString => EmptyString
  | String c s' =>
      match skip with
      | S k => replace_from old new k s'
      | O =>
          if String.prefix old s
          then new ++ replace_from old new (String.length old - 1) s'
          else String c (replace_from old new 0 s')
      end
  end.

Definition replace (old new s : string) : string :=
  if String.eqb old EmptyString then new ++ intersperse new s
  else replace_from old new 0 s.

(** [sub in s]. *)
Fixpoint contains (sub s : string) : bool :=
  String.prefix sub s ||
  match s with
  | EmptyString => false
  | String _ s' => contains sub s'
  end.

Fixpoint lstrip (sp : ascii -> bool) (s : string) : string :=
  match s with
  | EmptyString => EmptyString
  | String c s' => if sp c then lstrip sp s' else s
  end.

Fixpoint rstrip (sp : ascii -> bool) (s : string) : string :=
  match s with
  | EmptyString => EmptyString
  | String c s' =>
      let t := rstrip sp s' in
      if String.eqb t EmptyString && sp c then EmptyString else String c t
  end.

Definition strip_with (sp : ascii -> bool) (s : string) : string :=
  rstrip sp (lstrip sp s).

Definition lower_ascii (c : ascii) : ascii :=
  if between 65 90 c then ascii_of_nat (nat_of_ascii c + 32) else c.

Fixpoint lower_with (f : ascii -> ascii) (s : string) : string :=
  match s with
  | EmptyString => EmptyString
  | String c s' => String (f c) (lower_with f s')
  end.

Fixpoint is_ascii (s : string) : bool :=
  match s with
  | EmptyString => true
  | String c s' => Nat.ltb (nat_of_ascii c) 128 && is_ascii s'
  end.

(** [len(s)], the number of characters: in the UTF-8 encoding every
    character has one byte that is not a continuation byte. *)
Definition is_continuation (c : ascii) : bool := between 128 191 c.

Fixpoint len (s : string) : nat :=
  match s with
  | EmptyString => 0
  | String c s' => if is_continuation c then len s' else S (len s')
  end.

End Str.

(** ** What the interpreter supplies *)

Class Runtime : Type := {
  (** [s.strip()]: removes leading and trailing white space, as the Unicode
      character database defines it *)
  str_strip : string -> string;
  (** [s.lower()] *)
  str_lower : string -> string;
  (** the first step of [float(s)]: every decimal digit of any script
      becomes its ASCII digit and every white space character a space *)
  decimal_and_space_to_ascii : string -> string;
  (** [os.path.join] *)
  os_path_join : string -> string -> string;
  (** the module constant [DB_DIR], the [db] directory next to the script *)
  DB_DIR : string
}.

Module Posix.

(** White space among the ASCII characters, for [str.strip]. *)
Definition isspace (c : ascii) : bool :=
  Str.between 9 13 c || Str.between 28 32 c.

(** A pure-ASCII text is returned as it is; otherwise characters below
    127 are copied up to the first other one, which is not looked up in
    the database: it is written as a question mark and ends the text. *)
Fixpoint copy_ascii (s : string) : string :=
  match s with
  | EmptyString => EmptyString
  | String c s' =>
      if Nat.ltb (nat_of_ascii c) 127 then String c (copy_ascii s')
      else "?"
  end.

Definition to_ascii (s : string) : string :=
  if Str.is_ascii s then s else copy_ascii s.

Fixpoint endswith (c : ascii) (s : string) : bool :=
  match s with
  | EmptyString => false
  | String a EmptyString => Ascii.eqb a c
  | String _ s' => endswith c s'
  end.

(** [posixpath.join] of two components. *)
Definition join (a b : string) : string :=
  if String.prefix "/" b then b
  else if String.eqb a EmptyString || endswith "/" a then a ++ b
  else a ++ "/" ++ b.

End Posix.

(** ** [float(s)] on a [str]

    After [decimal_and_space_to_ascii] the text is ASCII and is read as
    CPython does: underscores are accepted between two digits and dropped,
    ASCII white space is stripped at both ends, and what remains is a
    signed [inf], [infinity] or [nan] in any case, or a decimal numeral
    with optional fraction and exponent, rounded to the nearest binary64
    number, ties to even.  A numeral too large is an infinity. *)

Module PyFloat.
Local Open Scope Z_scope.

Definition is_digit (c : ascii) : bool := Str.between 48 57 c.

Definition Py_ISSPACE (c : ascii) : bool :=
  Str.between 9 13 c || Ascii.eqb c " ".

(** [prev] is the previous character of the text, [None] at its start. *)
Fixpoint number_with_underscores (prev : option ascii) (s : string)
  : option string :=
  match s with
  | EmptyString =>
      match prev with
      | Some "_"%char => None
      | _ => Some EmptyString
      end
  | String c s' =>
      if Ascii.eqb c "_" then
        match prev with
        | Some p =>
            if is_digit p then number_with_underscores (Some c) s' else None
        | None => None
        end
      else
        let bad :=
          match prev with
          | Some "_"%char => negb (is_digit c)
          | _ => false
          end in
        if bad then None
        else option_map (String c) (number_with_underscores (Some c) s')
  end.

Fixpoint span_digits (s : string) : string * string :=
  match s with
  | EmptyString => (EmptyString, EmptyString)
  | String c s' =>
      if is_digit c then
        let '(ds, rest) := span_digits s' in (String c ds, rest)
      else (EmptyString, s)
  end.

Fixpoint digits_value (acc : Z) (ds : string) : Z :=
  match ds with
  | EmptyString => acc
  | String c ds' =>
      digits_value (10 * acc + Z.of_nat (nat_of_ascii c - 48)%nat) ds'
  end.

Definition take_sign (s : string) : bool * string :=
  match s with
  | String "-" s' => (true, s')
  | String "+" s' => (false, s')
  | _ => (false, s)
  end.

Definition parse_inf_or_nan (s : string) : option float :=
  let l := Str.lower_with Str.lower_ascii s in
  if String.eqb l "inf" || String.eqb l "infinity" then Some infinity
  else if String.eqb l "nan" then Some nan
  else None.

(** A numeral [digits [. digits] [e [sign] digits]] with at least one
    digit before the exponent, as the pair [(m, e)] of its value
    [m * 10 ^ e]. *)
Definition parse_decimal (s : string) : option (Z * Z) :=
  let '(ip, r1) := span_digits s in
  let '(fp, r2) :=
    match r1 with
    | String "." r => span_digits r
    | _ => (EmptyString, r1)
    end in
  if String.eqb ip EmptyString && String.eqb fp EmptyString then None
  else
    let m := digits_value 0 (ip ++ fp) in
    let scale := Z.of_nat (String.length fp) in
    match r2 with
    | EmptyString => Some (m, - scale)
    | String c r3 =>
        if Ascii.eqb c "e" || Ascii.eqb c "E" then
          let '(eneg, r4) := take_sign r3 in
          let '(ed, r5) := span_digits r4 in
          if String.eqb ed EmptyString || negb (String.eqb r5 EmptyString)
          then None
          else
            let x := digits_value 0 ed in
            Some (m, (if eneg then - x else x) - scale)
        else None
    end.

(** [n / d] as a fraction of [2 ^ e]. *)
Definition scale2 (n d e : Z) : Z * Z :=
  if 0 <=? e then (n, d * 2 ^ e) else (n * 2 ^ (- e), d).

(** The binary64 number nearest to [n / d] for positive [n] and [d]: a
    53-bit quotient at the exponent of the quotient (not below that of
    the subnormal numbers), rounded half to even. *)
Definition round_ratio (n d : Z) : float :=
  let k := Z.log2 n - Z.log2 d in
  let '(n1, d1) := scale2 n d (k - 52) in
  let e := Z.max (if n1 / d1 <? 2 ^ 52 then k - 53 else k - 52) (-1074) in
  let '(n2, d2) := scale2 n d e in
  let q := n2 / d2 in
  let r := n2 mod d2 in
  let up := (d2 <? 2 * r) || ((2 * r =? d2) && Z.odd q) in
  Z.ldexp (of_uint63 (Uint63.of_Z (if up then q + 1 else q))) e.

(** [m * 10 ^ e] for [0 <= m]; the two shortcuts keep the powers of ten
    small where the result is an infinity or a zero whatever [m] is. *)
Definition decimal_to_float (m e : Z) : float :=
  if m =? 0 then 0%float
  else if 0 <=? e then
    if 310 <=? e then infinity else round_ratio (m * 10 ^ e) 1
  else if Z.log2 m + 1081 <? 3 * (- e) then 0%float
  else round_ratio m (10 ^ (- e)).

Definition float_of_ascii (s : string) : option float :=
  match number_with_underscores None s with
  | None => None
  | Some s1 =>
      let s2 := Str.strip_with Py_ISSPACE s1 in
      let '(neg, body) := take_sign s2 in
      let magnitude :=
        match parse_inf_or_nan body with
        | Some f => Some f
        | None =>
            match parse_decimal body with
            | Some (m, e) => Some (decimal_to_float m e)
            | None => None
            end
        end in
      option_map (fun f => if neg then PrimFloat.opp f else f) magnitude
  end.

End PyFloat.

(** [float(s)]. *)
Definition float_ `{Runtime} (s : string) : Result float :=
  match PyFloat.float_of_ascii (decimal_and_space_to_ascii s) with
  | Some f => Ok f
  | None => Raise (ValueError s)
  end.

(** ** Reading a text file line by line

    [open(path, 'r', newline='')] iterated: a line ends after a line
    feed, after a carriage return, or after the two in a row, and keeps its
    ending; a last line without ending is a line too. *)

Module TextFile.

Fixpoint lines_from (line : string) (s : string) : list string :=
  match s with
  | EmptyString => if String.eqb line EmptyString then [] else [line]
  | String c s' =>
      if Ascii.eqb c Str.LF then
        (line ++ String c EmptyString)%string :: lines_from EmptyString s'
      else if Ascii.eqb c Str.CR then
        match s' with
        | String c' s'' =>
            if Ascii.eqb c' Str.LF
            then (line ++ String c (String c' EmptyString))%string
                   :: lines_from EmptyString s''
            else (line ++ String c EmptyString)%string
                   :: lines_from EmptyString s'
        | EmptyString =>
            (line ++ String c EmptyString)%string
              :: lines_from EmptyString s'
        end
      else lines_from (line ++ String c EmptyString) s'
  end.

Definition lines (content : string) : list string :=
  lines_from EmptyString content.

End TextFile.

(** ** The [csv] reader with the dialect of the call

    [csv.DictReader(f, delimiter=',')]: the [excel] dialect (the double
    quote as quote character, written twice inside a quoted field, no
    escape character, not strict).  The
    reader is the state machine of the module, as of CPython 3.11, for
    which a NUL character is a character like any other; the states of
    the escape character cannot be reached and are left out.  Its two
    errors are kept: a field larger than the field size limit, and a line
    ending in an unquoted field that is followed by more of the line. *)

Module Csv.

Inductive ParserState : Type :=
| START_RECORD
| START_FIELD
| IN_FIELD
| IN_QUOTED_FIELD
| QUOTE_IN_QUOTED_FIELD
| EAT_CRNL.

Record Reader : Type := mkReader {
  fields : list string;
  field : string;
  state : ParserState
}.

Definition delimiter : ascii := ","%char.
Definition quotechar : ascii := Str.QUOTE.

Definition is_newline (c : ascii) : bool :=
  Ascii.eqb c Str.LF || Ascii.eqb c Str.CR.

Definition parse_reset : Reader := mkReader [] EmptyString START_RECORD.

Definition parse_save_field (self : Reader) : Reader :=
  mkReader (fields self ++ [field self]) EmptyString (state self).

(** [csv.field_size_limit()], which the program leaves at its default. *)
Definition field_limit : N := 131072.

Definition msg_field_limit : string :=
  "field larger than field limit (131072)".

(** The field grows by one character unless it has reached the limit.
    The reader works on characters; here a character arrives byte by
    byte, and the test is made at its first byte. *)
Definition parse_add_char (self : Reader) (c : ascii) : Result Reader :=
  if negb (Str.is_continuation c)
     && N.leb field_limit (N.of_nat (Str.len (field self)))
  then Raise (csv_Error msg_field_limit)
  else
    Ok (mkReader (fields self) (field self ++ String c EmptyString)
          (state self)).

Definition set_state (self : Reader) (st : ParserState) : Reader :=
  mkReader (fields self) (field self) st.

Definition msg_newline : string :=
  "new-line character seen in unquoted field - " ++
  "do you need to open the file with newline=''?".

(** One step of the machine; the character [None] is the end of a line. *)
Definition parse_process_char (self : Reader) (c : option ascii)
  : Result Reader :=
  let end_of_field (c : option ascii) :=
    set_state (parse_save_field self)
      (match c with None => START_RECORD | Some _ => EAT_CRNL end) in
  let start_field (c : option ascii) :=
    match c with
    | None => Ok (end_of_field c)
    | Some a =>
        if is_newline a then Ok (end_of_field c)
        else if Ascii.eqb a quotechar then Ok (set_state self IN_QUOTED_FIELD)
        else if Ascii.eqb a delimiter then
          Ok (set_state (parse_save_field self) START_FIELD)
        else
          self' <- parse_add_char self a ;;
          Ok (set_state self' IN_FIELD)
    end in
  match state self with
  | START_RECORD =>
      match c with
      | None => Ok self
      | Some a =>
          if is_newline a then Ok (set_state self EAT_CRNL)
          else start_field c
      end
  | START_FIELD => start_field c
  | IN_FIELD =>
      match c with
      | None => Ok (end_of_field c)
      | Some a =>
          if is_newline a then Ok (end_of_field c)
          else if Ascii.eqb a delimiter then
            Ok (set_state (parse_save_field self) START_FIELD)
          else parse_add_char self a
      end
  | IN_QUOTED_FIELD =>
      match c with
      | None => Ok self
      | Some a =>
          if Ascii.eqb a quotechar
          then Ok (set_state self QUOTE_IN_QUOTED_FIELD)
          else parse_add_char self a
      end
  | QUOTE_IN_QUOTED_FIELD =>
      match c with
      | None => Ok (end_of_field c)
      | Some a =>
          if Ascii.eqb a quotechar then
            self' <- parse_add_char self a ;;
            Ok (set_state self' IN_QUOTED_FIELD)
          else if Ascii.eqb a delimiter then
            Ok (set_state (parse_save_field self) START_FIELD)
          else if is_newline a then Ok (end_of_field c)
          else
            self' <- parse_add_char self a ;;
            Ok (set_state self' IN_FIELD)
      end
  | EAT_CRNL =>
      match c with
      | None => Ok (set_state self START_RECORD)
      | Some a =>
          if is_newline a then Ok self
          else Raise (csv_Error msg_newline)
      end
  end.

Fixpoint parse_line (self : Reader) (line : string) : Result Reader :=
  match line with
  | EmptyString => parse_process_char self None
  | String c line' =>
      self' <- parse_process_char self (Some c) ;;
      parse_line self' line'
  end.

(** All the records of the reader over the given lines, each with the
    value of [reader.line_num] when it is returned: the number of lines
    read so far.  [self] is the machine at the start of the next line. *)
Fixpoint records (lines : list string) (self : Reader) (line_num : nat)
  : Result (list (nat * list string)) :=
  match lines with
  | [] =>
      if negb (String.eqb (field self) EmptyString)
         || match state self with IN_QUOTED_FIELD => true | _ => false end
      then Ok [(line_num, fields (parse_save_field self))]
      else Ok []
  | line :: rest =>
      self' <- parse_line self line ;;
      match state self' with
      | START_RECORD =>
          later <- records rest parse_reset (S line_num) ;;
          Ok ((S line_num, fields self') :: later)
      | _ => records rest self' (S line_num)
      end
  end.

Definition reader (lines : list string) : Result (list (nat * list string)) :=
  records lines parse_reset 0.

(** *** [DictReader] *)

(** [d[k] = v] on a dict in insertion order. *)
Fixpoint dict_set {V} (d : list (string * V)) (k : string) (v : V)
  : list (string * V) :=
  match d with
  | [] => [(k, v)]
  | (k', v') :: d' =>
      if String.eqb k' k then (k', v) :: d' else (k', v') :: dict_set d' k v
  end.

Fixpoint dict_get {V} (d : list (string * V)) (k : string) : option V :=
  match d with
  | [] => None
  | (k', v') :: d' => if String.eqb k' k then Some v' else dict_get d' k
  end.

(** A row as [DictReader] returns it: under the field names the cells, a
    [str] each or [None] where the record was short; under the key [None]
    the surplus cells of a long record. *)
Record DictRow : Type := mkDictRow {
  cells : list (string * option string);
  restkey : option (list string)
}.

Definition dict_row (fieldnames record : list string) : DictRow :=
  let d :=
    fold_left (fun d kv => dict_set d (fst kv) (Some (snd kv)))
      (combine fieldnames record) [] in
  let lf := List.length fieldnames in
  let lr := List.length record in
  if Nat.ltb lf lr then mkDictRow d (Some (skipn lf record))
  else if Nat.ltb lr lf then
    mkDictRow (fold_left (fun d k => dict_set d k None)
                 (skipn lr fieldnames) d) None
  else mkDictRow d None.

Definition is_blank (record : list string) : bool :=
  match record with [] => true | _ => false end.

(** [reader.fieldnames]: the first record, if there is one. *)
Definition fieldnames (recs : list (nat * list string))
  : option (list string) :=
  match recs with
  | [] => None
  | (_, names) :: _ => Some names
  end.

(** The rows that iterating the [DictReader] yields after the field
    names were read: one for every later record that is not blank, each
    with the line number of the reader when the record was complete. *)
Definition dict_rows (recs : list (nat * list string))
  : list (nat * DictRow) :=
  match recs with
  | [] => []
  | (_, names) :: data =>
      map (fun r => (fst r, dict_row names (snd r)))
        (filter (fun r => negb (is_blank (snd r))) data)
  end.

End Csv.

(** ** The record type (main.py, lines 50-58) *)

Record EntryRow : Type := mkEntryRow {
  label : string;
  innen : float;
  cetta_max : float;
  cetta_pro_meter : float
}.

(** An attribute value of an [EntryRow] instance. *)
Inductive attr_value : Type :=
| VStr (s : string)
| VFloat (f : float).

(** [self.<name>] read as a data attribute: the dataclass defines exactly
    four fields and the program assigns no other attribute to an instance,
    so reading any other name as a value raises. *)
Definition getattr (self : EntryRow) (name : string) : Result attr_value :=
  if String.eqb name "label" then Ok (VStr (label self))
  else if String.eqb name "innen" then Ok (VFloat (innen self))
  else if String.eqb name "cetta_max" then Ok (VFloat (cetta_max self))
  else if String.eqb name "cetta_pro_meter"
  then Ok (VFloat (cetta_pro_meter self))
  else Raise (AttributeError name).

(** [EntryRow.key]: [return (self.aussen, self.innen)]. *)
Definition key (self : EntryRow) : Result (attr_value * attr_value) :=
  a <- getattr self "aussen" ;;
  i <- getattr self "innen" ;;
  Ok (a, i).

(** ** The catalog loader (main.py, lines 72-115) *)

Section Loader.

Context `{Runtime}.

(** The local function [norm]. *)
Definition norm (s : string) : string :=
  Str.replace " " EmptyString (str_lower (str_strip s)).

(** [{norm(h): h for h in reader.fieldnames or []}]. *)
Definition make_header_map (fieldnames : option (list string))
  : list (string * string) :=
  fold_left (fun m h => Csv.dict_set m (norm h) h)
    (match fieldnames with Some names => names | None => [] end) [].

(** The first loop of [get]: the header of the first candidate spelling
    that is a key of [header_map], each candidate tried as it is and then
    with [aussen] in place of [außen]. *)
Fixpoint resolve_candidates (header_map : list (string * string))
    (candidates : list string) : option string :=
  match candidates with
  | [] => None
  | candidate :: later =>
      match Csv.dict_get header_map candidate with
      | Some h => Some h
      | None =>
          match Csv.dict_get header_map
                  (Str.replace "außen" "aussen" candidate) with
          | Some h => Some h
          | None => resolve_candidates header_map later
          end
      end
  end.

(** The second loop of [get] over [header_map.items()]: the header of
    the first normalised name that contains the logical name without its
    underscores. *)
Fixpoint resolve_substring (items : list (string * string))
    (logical : string) : option string :=
  match items with
  | [] => None
  | (k, v) :: later =>
      if Str.contains (Str.replace "_" EmptyString logical) k then Some v
      else resolve_substring later logical
  end.

(** The header that [get] reads for a logical column: the two loops of
    [get] up to the key of [row] that they select. *)
Definition resolve (header_map : list (string * string)) (logical : string)
  : option string :=
  match resolve_candidates header_map
          [logical; Str.replace "ß" "ss" logical;
           Str.replace "_" EmptyString logical] with
  | Some h => Some h
  | None => resolve_substring header_map logical
  end.

(** [row[h]]. *)
Definition getitem (row : Csv.DictRow) (h : string)
  : Result (option string) :=
  match Csv.dict_get (Csv.cells row) h with
  | Some v => Ok v
  | None => Raise (KeyError (MissingKey h))
  end.

(** The local function [get]. *)
Definition get (header_map : list (string * string)) (row : Csv.DictRow)
    (logical : string) : Result (option string) :=
  match resolve header_map logical with
  | Some h => getitem row h
  | None =>
      Raise (KeyError (ColumnNotFound logical (map snd header_map)))
  end.

(** [float(str(get(row, logical)).strip().replace(",", "."))]. *)
Definition get_float (header_map : list (string * string))
    (row : Csv.DictRow) (logical : string) : Result float :=
  v <- get header_map row logical ;;
  float_ (Str.replace "," "." (str_strip (str v))).

(** The body of the [try] statement, up to the [EntryRow] it appends. *)
Definition parse_row (header_map : list (string * string))
    (row : Csv.DictRow) : Result EntryRow :=
  v <- get header_map row "außen" ;;
  let label := str_strip (str v) in
  innen <- get_float header_map row "innen" ;;
  cetta_max <- get_float header_map row "cetta_max" ;;
  cetta_pm <- get_float header_map row "cetta_pro_meter" ;;
  Ok (mkEntryRow label innen cetta_max cetta_pm).

(** A line printed by the [except] branch: the f-string
    [[WARN] Fehler beim Parsen in {path}, Zeile {i}: {e} | Daten: {row}],
    of which the four interpolated values are kept. *)
Record Warning : Type := mkWarning {
  w_path : string;
  w_zeile : nat;
  w_error : exn;
  w_daten : Csv.DictRow
}.

(** The [for i, row in enumerate(reader, start=2)] loop from the counter
    [i] on: the list [rows] and the lines printed so far, after the loop. *)
Fixpoint load_loop (path : string) (header_map : list (string * string))
    (i : nat) (reader : list Csv.DictRow)
    (rows : list EntryRow) (printed : list Warning)
  : list EntryRow * list Warning :=
  match reader with
  | [] => (rows, printed)
  | row :: later =>
      match parse_row header_map row with
      | Ok r =>
          load_loop path header_map (S i) later (rows ++ [r]) printed
      | Raise e =>
          load_loop path header_map (S i) later rows
            (printed ++ [mkWarning path i e row])
      end
  end.

Definition csv_path (type_name : string) : string :=
  os_path_join DB_DIR (type_name ++ ".csv").

(** [load_type_rows]: the list it returns and the lines it prints.  The
    file system is the partial map [isfile] from the paths of the regular
    files to their text. *)
Definition load_type_rows (isfile : string -> option string)
    (type_name : string) : Result (list EntryRow * list Warning) :=
  let path := csv_path type_name in
  match isfile path with
  | None => Ok ([], [])
  | Some content =>
      recs <- Csv.reader (TextFile.lines content) ;;
      let header_map := make_header_map (Csv.fieldnames recs) in
      Ok (load_loop path header_map 2
            (map snd (Csv.dict_rows recs)) [] [])
  end.

End Loader.

(** ** The length parser (main.py, lines 118-131) *)

Definition parse_length_to_meters `{Runtime} (text unit : string)
  : option float :=
  if String.eqb text EmptyString then None
  else
    match float_ (Str.replace "," "." (Str.replace " " EmptyString text)) with
    | Raise _ => None
    | Ok val =>
        if String.eqb unit "m" then Some val
        else if String.eqb unit "cm" then Some (PrimFloat.div val 100%float)
        else None
    end.

(** ** The selection engine (main.py, lines 134-184) *)

(** The tolerance literal [1e-12] as the binary64 number Python reads it as. *)
Definition tolerance : float := 0x1.19799812dea11p-40%float.

(** The returned dict, with its four fixed keys. *)
Record SelectDict : Type := mkSelectDict {
  status : string;
  row : option EntryRow;
  required_cetta : float;
  message : string
}.

(** The test of the loop body: [r.cetta_max + 1e-12 >= req] with
    [req = length_m * r.cetta_pro_meter]. *)
Definition required (length_m : float) (r : EntryRow) : float :=
  PrimFloat.mul length_m (cetta_pro_meter r).

Definition covers (length_m : float) (r : EntryRow) : bool :=
  PrimFloat.leb (required length_m r) (PrimFloat.add (cetta_max r) tolerance).

(** The [for r in rows: ... break] loop: the state [(chosen, chosen_required)]
    after the loop, starting from [(None, 0.0)]. *)
Fixpoint scan (rows : list EntryRow) (length_m : float)
  : option EntryRow * float :=
  match rows with
  | [] => (None, 0%float)
  | r :: rest =>
      let req := required length_m r in
      if covers length_m r then (Some r, req) else scan rest length_m
  end.

Definition msg_empty : string := "Keine Datenzeilen vorhanden.".
Definition msg_none : string :=
  "Bei kleinster möglicher Außen: keiner (kein Eintrag deckt den Bedarf)".

Definition select_best (rows : list EntryRow) (length_m : float)
  : Result SelectDict :=
  match rows with
  | [] => Ok (mkSelectDict "none" None 0%float msg_empty)
  | _ =>
      let '(chosen, chosen_required) := scan rows length_m in
      match chosen with
      | Some c => Ok (mkSelectDict "ok" (Some c) chosen_required "OK")
      | None =>
          smallest <- index rows 0 ;;
          let req_smallest := required length_m smallest in
          Ok (mkSelectDict "none" (Some smallest) req_smallest msg_none)
      end
  end.

(** The three result variants of the specification, and how a returned dict
    is read as one of them: status ['ok'] is a fit, status ['none'] with a
    row is a failed search with its reference row, status ['none'] without
    a row is the empty catalog. *)
Inductive SelectionResult : Type :=
| Fit (record : EntryRow) (requiredCapacity : float)
| NoFit (referenceRecord : EntryRow) (requiredCapacity : float)
| Empty.

Definition variant (d : SelectDict) : option SelectionResult :=
  if String.eqb (status d) "ok" then
    match row d with
    | Some r => Some (Fit r (required_cetta d))
    | None => None
    end
  else if String.eqb (status d) "none" then
    match row d with
    | Some r => Some (NoFit r (required_cetta d))
    | None => Some Empty
    end
  else None.

(** [select] of the specification: the variant of the dict that
    [select_best] returns; [None] when the call raised or when the dict is
    none of the three. *)
Definition select (rows : list EntryRow) (length_m : float)
  : option SelectionResult :=
  match select_best rows length_m with
  | Ok d => variant d
  | Raise _ => None
  end.

(** ** The listing of the catalogs (main.py, lines 61-70) *)

Module OsPath.

(** [s.rfind(c)] for a character [c]: the index of its last occurrence,
    [-1] when there is none. *)
Fixpoint rfind_nat (c : ascii) (s : string) : option nat :=
  match s with
  | EmptyString => None
  | String a s' =>
      match rfind_nat c s' with
      | Some i => Some (S i)
      | None => if Ascii.eqb a c then Some 0 else None
      end
  end.

Definition rfind (c : ascii) (s : string) : Z :=
  match rfind_nat c s with
  | Some i => Z.of_nat i
  | None => (-1)%Z
  end.

(** [s[lo:hi]] for indices that are not negative. *)
Definition slice (s : string) (lo hi : Z) : string :=
  String.substring (Z.to_nat lo) (Z.to_nat hi - Z.to_nat lo) s.

Fixpoint only_dots (s : string) : bool :=
  match s with
  | EmptyString => true
  | String c s' => Ascii.eqb c "." && only_dots s'
  end.

(** [genericpath._splitext(p, sep, altsep, '.')], which is
    [os.path.splitext] with the separators of the platform: the extension
    starts at the last dot of the last component, unless only dots come
    before it in that component.  The loop over the leading dots returns
    at the first other character. *)
Definition splitext (sep : ascii) (altsep : option ascii) (p : string)
  : string * string :=
  let sepIndex := rfind sep p in
  let sepIndex :=
    match altsep with
    | Some a => Z.max sepIndex (rfind a p)
    | None => sepIndex
    end in
  let dotIndex := rfind "." p in
  if (sepIndex <? dotIndex)%Z
     && negb (only_dots (slice p (sepIndex + 1) dotIndex))
  then (slice p 0 dotIndex, slice p dotIndex (Z.of_nat (String.length p)))
  else (p, EmptyString).

(** [s.endswith(suffix)]. *)
Definition endswith (suffix s : string) : bool :=
  Nat.leb (String.length suffix) (String.length s)
  && String.eqb
       (String.substring (String.length s - String.length suffix)
          (String.length suffix) s)
       suffix.

(** [names.sort()] on a list of [str]: ascending in the order of the code
    points, which is the order of the bytes of the UTF-8 encoding.  Equal
    strings cannot be told apart, so the sorted list does not depend on
    the sorting algorithm; here each name is inserted in turn. *)
Fixpoint insert_name (x : string) (sorted : list string) : list string :=
  match sorted with
  | [] => [x]
  | y :: later =>
      if String.leb x y then x :: sorted else y :: insert_name x later
  end.

Definition sort (names : list string) : list string :=
  fold_right insert_name [] names.

End OsPath.

Section Listing.

Context `{Runtime}.

(** The separators of [os.path] on the platform. *)
Variables (sep : ascii) (altsep : option ascii).

(** [list_types].  The file system is the partial map [listdir] from the
    paths of the directories to the names of their entries, in the order
    in which [os.listdir] returns them. *)
Definition list_types (listdir : string -> option (list string))
  : list string :=
  match listdir DB_DIR with
  | None => []
  | Some entries =>
      OsPath.sort
        (fold_left
           (fun names fn =>
              if OsPath.endswith ".csv" (str_lower fn)
              then names ++ [fst (OsPath.splitext sep altsep fn)]
              else names)
           entries [])
  end.

End Listing.

(** ** The handler of the button (main.py, lines 290-329) *)

(** The three variables of the window that the handler reads. *)
Record App : Type := mkApp {
  selected_type : string;
  length_text : string;
  unit_ : string
}.

(** A text built by an f-string: literal pieces and the values of the
    [str] fields as they are, and the places where a float is formatted,
    with the format [.3f] or as [str] of the float. *)
Inductive piece : Type :=
| Lit (s : string)
| Fixed3 (x : float)
| FloatStr (x : float).

(** What the handler does to the window: one error box, or the texts of
    the two result labels. *)
Inductive Effect : Type :=
| showerror (title message : string)
| config (lbl_summary lbl_detail : list piece).

Definition summary_ok (r : EntryRow) (req : float) : list piece :=
  [Lit "Auswahl: "; Lit (label r); Lit " cetta "; Fixed3 req].

Definition detail_ok (r : EntryRow) : list piece :=
  [Lit ("Gefundener Datensatz (oberste passende Zeile):"
        ++ String Str.LF "  eintrag=");
   Lit (label r); Lit ", innen="; FloatStr (innen r);
   Lit ", cetta_max="; FloatStr (cetta_max r);
   Lit ", cetta_pro_meter="; FloatStr (cetta_pro_meter r)].

Definition summary_none (message : string) (req : float) : list piece :=
  [Lit message; Lit ". Erforderliche cetta (bei oberster Zeile): ";
   Fixed3 req].

Definition detail_none (r : EntryRow) : list piece :=
  [Lit "Oberste Zeile war: "; Lit (label r); Lit " | cetta_max=";
   FloatStr (cetta_max r);
   Lit ", cetta_pro_meter="; FloatStr (cetta_pro_meter r)].

Definition msg_no_type : string :=
  "Bitte einen Typ auswählen (CSV im Ordner 'db').".
Definition msg_bad_length : string :=
  "Bitte eine gültige Länge eingeben (z. B. 80,034).".
Definition msg_no_data (type_name : string) : string :=
  "Keine Daten in '" ++ type_name
  ++ ".csv' gefunden oder Spaltennamen fehlen.".

(** [App.on_calculate]: what it does to the window, and the lines that
    [load_type_rows] printed on the way.  Both branches read [r.label]
    first of all attributes of [r = result['row']], which raises when [r]
    is [None]. *)
Definition on_calculate `{Runtime} (isfile : string -> option string)
    (self : App) : Result (Effect * list Warning) :=
  let type_name := str_strip (selected_type self) in
  if String.eqb type_name EmptyString then
    Ok (showerror "Fehler" msg_no_type, [])
  else
    match parse_length_to_meters (length_text self) (unit_ self) with
    | None => Ok (showerror "Fehler" msg_bad_length, [])
    | Some length_m =>
        if PrimFloat.leb length_m 0 then
          Ok (showerror "Fehler" msg_bad_length, [])
        else
          loaded <- load_type_rows isfile type_name ;;
          let '(rows, printed) := loaded in
          match rows with
          | [] => Ok (showerror "Fehler" (msg_no_data type_name), printed)
          | _ =>
              result <- select_best rows length_m ;;
              let r := row result in
              let req := required_cetta result in
              if String.eqb (status result) "ok" then
                match r with
                | Some r =>
                    Ok (config (summary_ok r req) (detail_ok r), printed)
                | None => Raise (AttributeError "label")
                end
              else
                match r with
                | Some r =>
                    Ok (config (summary_none (message result) req)
                          (detail_none r), printed)
                | None => Raise (AttributeError "label")
                end
          end
    end.

(** ** A runtime to evaluate examples in

    The ASCII part of the character database and POSIX paths.  It agrees
    with the interpreter on every text whose other characters are neither
    white space, nor decimal digits, nor cased: on ASCII text and on the
    column names of the program. *)

#[export] Instance posix_ascii : Runtime := {
  str_strip := Str.strip_with Posix.isspace;
  str_lower := Str.lower_with Str.lower_ascii;
  decimal_and_space_to_ascii := Posix.to_ascii;
  os_path_join := Posix.join;
  DB_DIR := "/app/db"
}.

(** ** Example data *)

Module Examples.

(** The two-record catalog of the specification. *)
Definition row_10x1 : EntryRow := mkEntryRow "10x1" 8 1 0.5.
Definition row_22x1 : EntryRow := mkEntryRow "22x1" 20 3 1.
Definition catalog : list EntryRow := [row_10x1; row_22x1].

Definition nl : string := String Str.LF EmptyString.

(** A file system with one catalog file, [rohr.csv]. *)
Definition only (content : string) (path : string) : option string :=
  if String.eqb path "/app/db/rohr.csv" then Some content else None.

(** The catalog above as a file. *)
Definition rohr_csv : string :=
  "außen,innen,cetta_max,cetta_pro_meter" ++ nl ++
  "10x1,8,1.0,0.5" ++ nl ++
  "22x1,20,3.0,1.0" ++ nl.


(** An empty line after the header, then a row whose [cetta_max] is not
    a number, then a good row. *)
Definition blank_line_csv : string :=
  "aussen,innen,cetta_max,cetta_pro_meter" ++ nl ++
  nl ++
  "10x1,8,abc,0.5" ++ nl ++
  "22x1,20,3.0,1.0" ++ nl.

(** The rows of the catalog in descending order. *)
Definition unsorted_csv : string :=
  "außen,innen,cetta_max,cetta_pro_meter" ++ nl ++
  "22x1,20,3.0,1.0" ++ nl ++
  "10x1,8,1.0,0.5" ++ nl.

Definition header_only_csv : string :=
  "außen,innen,cetta_max,cetta_pro_meter" ++ nl.

End Examples.

(** ** More example data *)

Module Cases.

(** The label column last, and a second row that lacks its last cell. *)
Definition short_row_csv : string :=
  "innen,cetta_max,cetta_pro_meter,außen" ++ Examples.nl ++
  "8,1.0,0.5,10x1" ++ Examples.nl ++
  "20,3.0,1.0" ++ Examples.nl.

(** The example catalog after an empty first line. *)
Definition blank_first_line_csv : string :=
  Examples.nl ++ Examples.rohr_csv.

(** A row with a surplus cell. *)
Definition surplus_csv : string :=
  "außen,innen,cetta_max,cetta_pro_meter" ++ Examples.nl ++
  "10x1,8,1.0,0.5,alt" ++ Examples.nl.

(** A row whose capacity is not a number, between two good rows. *)
Definition bad_second_row_csv : string :=
  "außen,innen,cetta_max,cetta_pro_meter" ++ Examples.nl ++
  "10x1,8,1.0,0.5" ++ Examples.nl ++
  "15x1,13,abc,0.7" ++ Examples.nl ++
  "22x1,20,3.0,1.0" ++ Examples.nl.

(** The entries of a [db] directory. *)
Definition db_entries : list string :=
  ["rohr.csv"; "notes.txt"; "ROHR.CSV"; "kabel.csv"; ".csv"].

Definition db (path : string) : option (list string) :=
  if String.eqb path "/app/db" then Some db_entries else None.

End Cases.

(** ** Notions used in the statements *)

(** The text that [parse_length_to_meters] hands to [float]. *)
Definition cleaned (text : string) : string :=
  Str.replace "," "." (Str.replace " " EmptyString text).

(** The shape of a line of a text file: once a line-ending character has
    occurred, only line-ending characters follow. *)
Fixpoint only_newlines (s : string) : bool :=
  match s with
  | EmptyString => true
  | String c s' => Csv.is_newline c && only_newlines s'
  end.

Fixpoint no_newline (s : string) : bool :=
  match s with
  | EmptyString => true
  | String c s' => negb (Csv.is_newline c) && no_newline s'
  end.

Fixpoint line_shaped (s : string) : bool :=
  match s with
  | EmptyString => true
  | String c s' => if Csv.is_newline c then only_newlines s' else line_shaped s'
  end.

(** The logical columns that the loop of [load_type_rows] asks [get] for,
    in the order of the four statements. *)
Definition logical_columns : list string :=
  ["außen"; "innen"; "cetta_max"; "cetta_pro_meter"].

(** The rows that parse, in the order of the reader, and the warnings of
    the others, counted from [i]: what the loop of [load_type_rows]
    computes, without its accumulators. *)
Definition kept `{Runtime} (header_map : list (string * string))
    (reader : list Csv.DictRow) : list EntryRow :=
  flat_map (fun row =>
              match parse_row header_map row with
              | Ok r => [r]
              | Raise _ => []
              end) reader.

Fixpoint warnings `{Runtime} (path : string)
    (header_map : list (string * string)) (i : nat)
    (reader : list Csv.DictRow) : list Warning :=
  match reader with
  | [] => []
  | row :: later =>
      match parse_row header_map row with
      | Ok _ => warnings path header_map (S i) later
      | Raise e =>
          mkWarning path i e row :: warnings path header_map (S i) later
      end
  end.




(** The last header of the header row [names] whose normalised name is
    [k]. *)
Definition last_header `{Runtime} (names : list string) (k : string)
  : option string :=
  find (fun h => String.eqb (norm h) k) (rev names).

(** The first header of the header row [names], in the order of the file,
    whose normalised name contains the logical name without its
    underscores. *)
Definition first_containing `{Runtime} (names : list string)
    (logical : string) : option string :=
  find (fun h => Str.contains (Str.replace "_" EmptyString logical) (norm h))
    names.

(** The header that the second loop of [get] reaches: the last header
    that shares its normalised name with the first header containing the
    logical name. *)
Definition by_substring `{Runtime} (names : list string) (logical : string)
  : option string :=
  match first_containing names logical with
  | Some h => last_header names (norm h)
  | None => None
  end.


(** A text without line ending, delimiter or quote, of whole characters
    of one byte each. *)
Fixpoint plain_text (s : string) : bool :=
  match s with
  | EmptyString => true
  | String c s' =>
      negb (Csv.is_newline c) && negb (Ascii.eqb c Csv.delimiter)
      && negb (Ascii.eqb c Csv.quotechar) && Nat.ltb (nat_of_ascii c) 128
      && plain_text s'
  end.

(** * Properties *)

(** ** The models of the library functions on known values

    Values that the interpreter gives for the same arguments. *)

Example float_of_tolerance_literal : float_ "1e-12" = Ok tolerance.
Proof. vm_compute. reflexivity. Qed.

Example float_rounds_ties_to_even :
  float_ "9007199254740993" = Ok 9007199254740992%float /\
  float_ "9007199254740995" = Ok 9007199254740996%float.
Proof. split; vm_compute; reflexivity. Qed.

Example float_range :
  float_ "1.7976931348623157e308" = Ok 0x1.fffffffffffffp+1023%float /\
  float_ "1e309" = Ok infinity /\
  float_ "4.9e-324" = Ok 0x1p-1074%float /\
  float_ "-1e-400" = Ok (-0)%float.
Proof. repeat split; vm_compute; reflexivity. Qed.

Example float_syntax :
  float_ " 1_0.5 " = Ok 10.5%float /\
  float_ "-Infinity" = Ok neg_infinity /\
  float_ "NaN" = Ok nan /\
  float_ ".5e1" = Ok 5%float /\
  float_ "1__0" = Raise (ValueError "1__0") /\
  float_ "1e" = Raise (ValueError "1e") /\
  float_ "None" = Raise (ValueError "None") /\
  float_ EmptyString = Raise (ValueError EmptyString).
Proof. repeat split; vm_compute; reflexivity. Qed.

Example lines_keep_their_endings :
  TextFile.lines
    ("a" ++ String Str.CR Examples.nl ++ "b" ++ String Str.CR "c" ++
     Examples.nl ++ "d") =
  [("a" ++ String Str.CR Examples.nl)%string;
   String "b" (String Str.CR EmptyString);
   ("c" ++ Examples.nl)%string;
   "d"%string].
Proof. vm_compute. reflexivity. Qed.

(** A quoted field with a doubled quote and a line ending inside it: one
    record, complete at the second line. *)
Example reader_quoted_field :
  Csv.reader
    (TextFile.lines
       ("x," ++ String Str.QUOTE "a" ++ String Str.QUOTE EmptyString ++
        String Str.QUOTE EmptyString ++ Examples.nl ++
        "b" ++ String Str.QUOTE EmptyString ++ ",y" ++ Examples.nl)) =
  Ok [(2, ["x"%string;
           ("a" ++ String Str.QUOTE EmptyString ++ Examples.nl ++ "b")%string;
           "y"%string])].
Proof. vm_compute. reflexivity. Qed.

Example dict_row_short_and_long :
  Csv.dict_row ["a"; "b"] ["1"] =
    Csv.mkDictRow [("a", Some "1"); ("b", None)] None /\
  Csv.dict_row ["a"] ["1"; "2"] =
    Csv.mkDictRow [("a", Some "1")] (Some ["2"]) /\
  Csv.dict_row ["a"; "a"] ["1"; "2"] =
    Csv.mkDictRow [("a", Some "2")] None.
Proof. repeat split; reflexivity. Qed.

(** Headers in other spellings resolve to the same columns, and the file
    of the example catalog loads as that catalog. *)
Example header_spellings :
  map (resolve (make_header_map (Some [" Aussen "; "INNEN"; "Cetta Max";
                                       "cettaprometer (kg)"])))
    logical_columns =
  [Some " Aussen "; Some "INNEN"; Some "Cetta Max";
   Some "cettaprometer (kg)"].
Proof. vm_compute. reflexivity. Qed.

Example load_example_catalog :
  load_type_rows (Examples.only Examples.rohr_csv) "rohr" =
  Ok (Examples.catalog, []).
Proof. vm_compute. reflexivity. Qed.

(** ** The selection engine *)

Section Selection.

Variable length_m : float.

Lemma scan_none (rows : list EntryRow) :
  fst (scan rows length_m) = None <->
  Forall (fun r => covers length_m r = false) rows.
Proof.
  induction rows as [|r rest IH]; simpl.
  - split; auto.
  - destruct (covers length_m r) eqn:E; simpl.
    + split; [discriminate|]. intros F. inversion F; congruence.
    + rewrite IH. split; [auto | intros F; inversion F; auto].
Qed.

Lemma scan_some (rows : list EntryRow) (r : EntryRow) (req : float) :
  scan rows length_m = (Some r, req) <->
  exists before after,
    rows = before ++ r :: after /\
    Forall (fun x => covers length_m x = false) before /\
    covers length_m r = true /\
    req = required length_m r.
Proof.
  induction rows as [|x rest IH]; simpl.
  - split; [discriminate|].
    intros (b & a & E & _). destruct b; discriminate.
  - destruct (covers length_m x) eqn:C.
    + split.
      * intros E. injection E as <- <-.
        exists [], rest. auto.
      * intros (b & a & E & F & Cr & ->).
        destruct b as [|y b]; simpl in E; injection E as -> E.
        -- reflexivity.
        -- inversion F; congruence.
    + rewrite IH. split.
      * intros (b & a & -> & F & Cr & ->).
        exists (x :: b), a. auto.
      * intros (b & a & E & F & Cr & ->).
        destruct b as [|y b]; simpl in E; injection E as -> E.
        -- congruence.
        -- exists b, a. inversion F; auto.
Qed.

(** What [select_best] returns on a catalog that is not empty, by the
    outcome of the loop. *)
Lemma select_best_cons (r0 : EntryRow) (rest : list EntryRow) :
  select_best (r0 :: rest) length_m =
  match scan (r0 :: rest) length_m with
  | (Some c, req) => Ok (mkSelectDict "ok" (Some c) req "OK")
  | (None, _) =>
      Ok (mkSelectDict "none" (Some r0) (required length_m r0) msg_none)
  end.
Proof.
  unfold select_best.
  destruct (scan (r0 :: rest) length_m) as [[c|] req]; reflexivity.
Qed.

Lemma select_cons (r0 : EntryRow) (rest : list EntryRow) :
  select (r0 :: rest) length_m =
  match scan (r0 :: rest) length_m with
  | (Some c, req) => Some (Fit c req)
  | (None, _) => Some (NoFit r0 (required length_m r0))
  end.
Proof.
  unfold select. rewrite select_best_cons.
  destruct (scan (r0 :: rest) length_m) as [[c|] req]; reflexivity.
Qed.

End Selection.

(** C1. On a catalog that is not empty, [select] returns [Fit] with the
    first record in catalog order that covers its own requirement
    [length_m * r.cetta_pro_meter] within the tolerance, together with that
    requirement; and whenever it returns [Fit r req], every record before
    [r] fails its own requirement, so that no later record that would also
    do is ever returned. *)
Theorem select_first_fit (rows : list EntryRow) (length_m : float) :
  rows <> [] ->
  (forall before r after,
      rows = before ++ r :: after ->
      Forall (fun x => covers length_m x = false) before ->
      covers length_m r = true ->
      select rows length_m = Some (Fit r (required length_m r))) /\
  (forall r req,
      select rows length_m = Some (Fit r req) ->
      exists before after,
        rows = before ++ r :: after /\
        Forall (fun x => covers length_m x = false) before /\
        covers length_m r = true /\
        req = required length_m r).
Proof.
  destruct rows as [|r0 rest]; [congruence|]. intros _.
  rewrite select_cons. split.
  - intros before r after E F C.
    assert (S : scan (r0 :: rest) length_m = (Some r, required length_m r))
      by (apply scan_some; exists before, after; auto).
    rewrite S. reflexivity.
  - intros r req.
    destruct (scan (r0 :: rest) length_m) as [[c|] q] eqn:S;
      intros E; [|discriminate].
    injection E as -> ->. apply scan_some. exact S.
Qed.

Lemma select_first_fit_witness :
  Examples.catalog <> [] /\
  select Examples.catalog 2 = Some (Fit Examples.row_10x1 1).
Proof.
  assert (N : Examples.catalog <> []) by discriminate.
  split; [exact N|].
  exact (proj1 (select_first_fit Examples.catalog 2 N)
           [] Examples.row_10x1 [Examples.row_22x1]
           eq_refl (Forall_nil _) eq_refl).
Defined.

(** C2. For every catalog and every length [select_best] returns a dict
    (it never raises), and the dict is exactly one of the three variants;
    the variant is [Empty] exactly when the catalog is empty. *)
Theorem select_total (rows : list EntryRow) (length_m : float) :
  (exists d v,
      select_best rows length_m = Ok d /\
      variant d = Some v /\
      forall v', variant d = Some v' -> v' = v) /\
  (rows = [] <-> select rows length_m = Some Empty).
Proof.
  destruct rows as [|r0 rest].
  - split.
    + exists (mkSelectDict "none" None 0 msg_empty), Empty.
      repeat split. intros v' E. unfold variant in E. simpl in E. congruence.
    + split; reflexivity.
  - rewrite select_cons, select_best_cons.
    destruct (scan (r0 :: rest) length_m) as [[c|] req]; split.
    + exists (mkSelectDict "ok" (Some c) req "OK"), (Fit c req).
      repeat split. intros v' E. unfold variant in E. simpl in E. congruence.
    + split; discriminate.
    + exists (mkSelectDict "none" (Some r0) (required length_m r0) msg_none),
        (NoFit r0 (required length_m r0)).
      repeat split. intros v' E. unfold variant in E. simpl in E. congruence.
    + split; discriminate.
Qed.

(** C3. On a catalog that is not empty, [select] returns [NoFit] exactly
    when no record covers its own requirement, and then the reference is
    the first record of the catalog and the requirement is computed with
    the rate of that first record. *)
Theorem select_no_fit (rows : list EntryRow) (length_m : float) :
  rows <> [] ->
  ((exists ref req, select rows length_m = Some (NoFit ref req)) <->
   Forall (fun r => covers length_m r = false) rows) /\
  (forall ref req,
      select rows length_m = Some (NoFit ref req) ->
      nth_error rows 0 = Some ref /\
      req = PrimFloat.mul length_m (cetta_pro_meter ref)).
Proof.
  destruct rows as [|r0 rest]; [congruence|]. intros _.
  rewrite select_cons, <- scan_none.
  destruct (scan (r0 :: rest) length_m) as [[c|] q]; simpl; split.
  - split; [intros (ref & req & E)|]; discriminate.
  - discriminate.
  - split; [reflexivity|]. intros _. eauto.
  - intros ref req E. injection E as <- <-. split; reflexivity.
Qed.

Lemma select_no_fit_witness :
  Examples.catalog <> [] /\
  nth_error Examples.catalog 0 = Some Examples.row_10x1 /\
  5%float = PrimFloat.mul 10 (cetta_pro_meter Examples.row_10x1).
Proof.
  assert (N : Examples.catalog <> []) by discriminate.
  split; [exact N|].
  exact (proj2 (select_no_fit Examples.catalog 10 N)
           Examples.row_10x1 5%float eq_refl).
Defined.

(** C4. The two examples of the specification: on the two-record catalog
    the length 2.0 selects the record 10x1 with the requirement 1.0, which
    equals its capacity 1.0 and is accepted; the length 10.0 fits no
    record and reports the record 10x1 with the requirement 5.0. *)
Theorem select_examples :
  select Examples.catalog 2 = Some (Fit Examples.row_10x1 1) /\
  required 2 Examples.row_10x1 = cetta_max Examples.row_10x1 /\
  covers 2 Examples.row_10x1 = true /\
  select Examples.catalog 10 = Some (NoFit Examples.row_10x1 5) /\
  covers 10 Examples.row_10x1 = false /\
  covers 10 Examples.row_22x1 = false /\
  select_best Examples.catalog 2 =
    Ok (mkSelectDict "ok" (Some Examples.row_10x1) 1 "OK") /\
  select_best Examples.catalog 10 =
    Ok (mkSelectDict "none" (Some Examples.row_10x1) 5 msg_none).
Proof.
  repeat split; vm_compute; reflexivity.
Qed.

(** ** The length parser *)

Lemma string_app_assoc (s t u : string) :
  (s ++ (t ++ u) = (s ++ t) ++ u)%string.
Proof.
  induction s as [|c s IH]; simpl; [reflexivity | now rewrite IH].
Qed.

Section ReplaceChar.

(** Replacing a pattern of one character goes character by character. *)
Variables (a : ascii) (new : string).

Lemma replace_char_cons (c : ascii) (s : string) :
  Str.replace (String a EmptyString) new (String c s) =
  if Ascii.eqb a c
  then (new ++ Str.replace (String a EmptyString) new s)%string
  else String c (Str.replace (String a EmptyString) new s).
Proof.
  unfold Str.replace. simpl.
  destruct (ascii_dec a c) as [->|N].
  - rewrite Ascii.eqb_refl. destruct s; reflexivity.
  - apply Ascii.eqb_neq in N. rewrite N. reflexivity.
Qed.

Lemma replace_char_app (s t : string) :
  Str.replace (String a EmptyString) new (s ++ t) =
  (Str.replace (String a EmptyString) new s ++
   Str.replace (String a EmptyString) new t)%string.
Proof.
  induction s as [|c s IH].
  - reflexivity.
  - change (String c s ++ t)%string with (String c (s ++ t)).
    rewrite !replace_char_cons, IH.
    destruct (Ascii.eqb a c); simpl.
    + apply string_app_assoc.
    + reflexivity.
Qed.

End ReplaceChar.

Lemma cleaned_cons (c : ascii) (s : string) :
  cleaned (String c s) =
  if Ascii.eqb " " c then cleaned s
  else if Ascii.eqb "," c then String "." (cleaned s)
  else String c (cleaned s).
Proof.
  unfold cleaned. rewrite replace_char_cons.
  destruct (Ascii.eqb " " c); [reflexivity|].
  rewrite replace_char_cons. destruct (Ascii.eqb "," c); reflexivity.
Qed.

Lemma cleaned_comma_point (text : string) :
  cleaned (Str.replace "," "." text) = cleaned text.
Proof.
  induction text as [|c s IH]; [reflexivity|].
  rewrite replace_char_cons, (cleaned_cons c).
  destruct (Ascii.eqb "," c) eqn:E1.
  - apply Ascii.eqb_eq in E1. subst c. simpl.
    rewrite cleaned_cons. simpl. now rewrite IH.
  - rewrite cleaned_cons, E1. now rewrite IH.
Qed.

Lemma replace_comma_empty (text : string) :
  String.eqb (Str.replace "," "." text) EmptyString =
  String.eqb text EmptyString.
Proof.
  destruct text as [|c s]; [reflexivity|].
  rewrite replace_char_cons. destruct (Ascii.eqb "," c); reflexivity.
Qed.

Lemma cleaned_space (s t : string) :
  cleaned (s ++ " " ++ t) = cleaned (s ++ t).
Proof.
  unfold cleaned. now rewrite !replace_char_app.
Qed.

Lemma prefix_char (a c : ascii) (s : string) :
  String.prefix (String a EmptyString) (String c s) = Ascii.eqb a c.
Proof.
  cbn [String.prefix].
  destruct (ascii_dec a c) as [->|N].
  - rewrite Ascii.eqb_refl. destruct s; reflexivity.
  - apply Ascii.eqb_neq in N. now rewrite N.
Qed.

Lemma no_space_left (text : string) :
  Str.contains " " (Str.replace " " EmptyString text) = false.
Proof.
  induction text as [|c s IH]; [reflexivity|].
  rewrite replace_char_cons.
  destruct (Ascii.eqb " " c) eqn:E; [exact IH|].
  cbn [Str.contains]. now rewrite prefix_char, E, IH.
Qed.

Lemma parse_length_unfold `{Runtime} (text unit : string) :
  text <> EmptyString ->
  parse_length_to_meters text unit =
  match float_ (cleaned text) with
  | Raise _ => None
  | Ok val =>
      if String.eqb unit "m" then Some val
      else if String.eqb unit "cm" then Some (PrimFloat.div val 100)
      else None
  end.
Proof.
  intros N. unfold parse_length_to_meters.
  destruct (String.eqb_spec text EmptyString); [contradiction|reflexivity].
Qed.

(** C5. The length parser reads a comma as a decimal point; for the unit
    [m] it returns the value that [float] reads and for [cm] that value
    divided by 100; it returns [None] when [float] rejects the text and
    for every other unit.  The four examples: 80,034 cm is the binary64
    number that the literal 0.80034 denotes, 1.5 m is 1.5, abc is rejected,
    and -1 m is -1.0, which the parser accepts. *)
Theorem parse_length_to_meters_spec :
  (forall (R : Runtime) text unit,
      parse_length_to_meters (Str.replace "," "." text) unit =
      parse_length_to_meters text unit) /\
  (forall (R : Runtime) text val,
      text <> EmptyString ->
      float_ (cleaned text) = Ok val ->
      parse_length_to_meters text "m" = Some val /\
      parse_length_to_meters text "cm" = Some (PrimFloat.div val 100)) /\
  (forall (R : Runtime) text unit e,
      float_ (cleaned text) = Raise e ->
      parse_length_to_meters text unit = None) /\
  (forall (R : Runtime) text unit,
      unit <> "m" -> unit <> "cm" ->
      parse_length_to_meters text unit = None) /\
  parse_length_to_meters "80,034" "cm" = Some 0x1.99c62a1b5c7cep-1%float /\
  float_ "0.80034" = Ok 0x1.99c62a1b5c7cep-1%float /\
  parse_length_to_meters "1.5" "m" = Some 1.5%float /\
  parse_length_to_meters "abc" "m" = None /\
  parse_length_to_meters "-1" "m" = Some (-1)%float.
Proof.
  split; [|split; [|split; [|split]]].
  - intros R text unit. unfold parse_length_to_meters.
    rewrite replace_comma_empty.
    change (Str.replace "," "." (Str.replace " " EmptyString ?t))
      with (cleaned t).
    now rewrite cleaned_comma_point.
  - intros R text val N E.
    rewrite !parse_length_unfold, E by assumption. split; reflexivity.
  - intros R text unit e E. unfold parse_length_to_meters.
    destruct (String.eqb text EmptyString); [reflexivity|].
    change (Str.replace "," "." (Str.replace " " EmptyString text))
      with (cleaned text).
    now rewrite E.
  - intros R text unit Nm Ncm. unfold parse_length_to_meters.
    destruct (String.eqb text EmptyString); [reflexivity|].
    destruct (float_ _); [|reflexivity].
    apply String.eqb_neq in Nm, Ncm. now rewrite Nm, Ncm.
  - repeat split; vm_compute; reflexivity.
Qed.

Lemma parse_length_to_meters_spec_witness :
  parse_length_to_meters "2,5" "m" = Some 2.5%float /\
  parse_length_to_meters "2,5" "cm" = Some (PrimFloat.div 2.5 100) /\
  parse_length_to_meters "2,5" "km" = None.
Proof.
  destruct parse_length_to_meters_spec as (_ & Hval & _ & Hunit & _).
  destruct (Hval posix_ascii "2,5" 2.5%float) as [Hm Hcm].
  - discriminate.
  - vm_compute. reflexivity.
  - split; [exact Hm|]. split; [exact Hcm|].
    apply (Hunit posix_ascii); discriminate.
Defined.

(** C10. Every space of the text is removed before [float] reads it, the
    interior ones too: a space put anywhere in a text does not change the
    result, the text handed to [float] contains no space, and 1 234,5 m is
    read as 1234.5. *)
Theorem parse_length_ignores_spaces :
  (forall (R : Runtime) before after unit,
      (before ++ after)%string <> EmptyString ->
      parse_length_to_meters (before ++ " " ++ after) unit =
      parse_length_to_meters (before ++ after) unit) /\
  (forall text, Str.contains " " (Str.replace " " EmptyString text) = false) /\
  parse_length_to_meters "1 234,5" "m" = Some 1234.5%float /\
  float_ "1 234.5" = Raise (ValueError "1 234.5").
Proof.
  split; [|split; [exact no_space_left | split; vm_compute; reflexivity]].
  intros R before after unit N.
  rewrite !parse_length_unfold, cleaned_space; [reflexivity|exact N|].
  destruct before; discriminate.
Qed.

Lemma parse_length_ignores_spaces_witness :
  parse_length_to_meters ("1" ++ " " ++ "234,5") "m" =
  parse_length_to_meters ("1" ++ "234,5") "m".
Proof.
  apply (proj1 parse_length_ignores_spaces posix_ascii "1" "234,5" "m").
  discriminate.
Defined.

(** ** The errors of the reader on the lines of a file *)

Module ReaderFacts.
Import Csv.


Lemma len_le_length (s : string) : Str.len s <= String.length s.
Proof.
  induction s as [|c s IH]; cbn; [lia|].
  destruct (Str.is_continuation c); lia.
Qed.









Lemma shaped_app (line ending : string) :
  no_newline line = true ->
  only_newlines ending = true ->
  line_shaped (line ++ ending) = true.
Proof.
  intros N O. induction line as [|c line IH]; cbn.
  - destruct ending as [|c e]; [reflexivity|].
    cbn in O. apply andb_prop in O as [Nc O]. cbn. now rewrite Nc.
  - cbn in N. apply andb_prop in N as [Nc N].
    apply negb_true_iff in Nc. rewrite Nc. now apply IH.
Qed.

Lemma no_newline_snoc (line : string) (c : ascii) :
  no_newline line = true ->
  is_newline c = false ->
  no_newline (line ++ String c EmptyString) = true.
Proof.
  intros N Nc. induction line as [|x line IH]; cbn.
  - now rewrite Nc.
  - cbn in N. apply andb_prop in N as [Nx N]. rewrite Nx. now apply IH.
Qed.

Lemma lines_from_shaped (s : string) :
  forall line,
  no_newline line = true ->
  Forall (fun l => line_shaped l = true) (TextFile.lines_from line s).
Proof.
  induction s as [|c s IH]; intros line N.
  - cbn. destruct (String.eqb line EmptyString); constructor; [|constructor].
    rewrite <- (shaped_app line EmptyString N eq_refl). f_equal.
    clear. induction line; cbn; congruence.
  - cbn [TextFile.lines_from].
    destruct (Ascii.eqb c Str.LF) eqn:Elf.
    { constructor; [|now apply IH].
      apply shaped_app; [exact N|]. cbn. unfold is_newline. now rewrite Elf. }
    destruct (Ascii.eqb c Str.CR) eqn:Ecr.
    { assert (Nc : is_newline c = true)
        by (unfold is_newline; rewrite Ecr; apply orb_true_r).
      assert (One : Forall (fun l => line_shaped l = true)
                      ((line ++ String c EmptyString)%string
                         :: TextFile.lines_from EmptyString s)).
      { constructor; [|now apply IH].
        apply shaped_app; [exact N|]. cbn. now rewrite Nc. }
      destruct s as [|c' s'']; [exact One|].
      destruct (Ascii.eqb c' Str.LF) eqn:Elf'; [|exact One].
      constructor.
      - apply shaped_app; [exact N|]. cbn. rewrite Nc.
        unfold is_newline. now rewrite Elf'.
      - specialize (IH EmptyString eq_refl). cbn [TextFile.lines_from] in IH.
        rewrite Elf' in IH. now inversion IH. }
    apply IH, no_newline_snoc; [exact N|].
    unfold is_newline. now rewrite Elf, Ecr.
Qed.


End ReaderFacts.



(** *** A field beyond the limit *)

Lemma plain_char (c : ascii) (s : string) :
  plain_text (String c s) = true ->
  Csv.is_newline c = false /\
  Ascii.eqb c Csv.delimiter = false /\
  Ascii.eqb c Csv.quotechar = false /\
  Str.is_continuation c = false /\
  plain_text s = true.
Proof.
  cbn [plain_text]. intros P.
  repeat (apply andb_prop in P as [P ?]).
  repeat match goal with
         | H : negb _ = true |- _ => apply negb_true_iff in H
         end.
  repeat split; auto.
  unfold Str.is_continuation, Str.between.
  match goal with H : Nat.ltb _ 128 = true |- _ => apply Nat.ltb_lt in H end.
  destruct (Nat.leb_spec 128 (nat_of_ascii c)); [lia|reflexivity].
Qed.

Lemma plain_len (s : string) :
  plain_text s = true -> Str.len s = String.length s.
Proof.
  induction s as [|c s IH]; [reflexivity|]. intros P.
  destruct (plain_char c s P) as (_ & _ & _ & C & Ps).
  cbn. rewrite C. now rewrite IH.
Qed.





(** ** The catalog loader *)

Module DictFacts.
Import Csv.

Section Dict.

Context {V : Type}.

Lemma dict_get_set (d : list (string * V)) (k k' : string) (v : V) :
  dict_get (dict_set d k v) k' =
  if String.eqb k k' then Some v else dict_get d k'.
Proof.
  induction d as [|[x y] d IH]; cbn.
  - reflexivity.
  - destruct (String.eqb_spec x k) as [->|N]; cbn.
    + destruct (String.eqb k k'); reflexivity.
    + rewrite IH. destruct (String.eqb_spec x k') as [->|N'].
      * destruct (String.eqb_spec k k'); [congruence|reflexivity].
      * reflexivity.
Qed.




End Dict.



End DictFacts.

Section LoaderFacts.

Context `{Runtime}.

Lemma load_loop_spec (path : string) (header_map : list (string * string))
    (reader : list Csv.DictRow) :
  forall i rows printed,
  load_loop path header_map i reader rows printed =
  (rows ++ kept header_map reader,
   printed ++ warnings path header_map i reader).
Proof.
  induction reader as [|row later IH]; intros i rows printed; cbn.
  - now rewrite !app_nil_r.
  - unfold kept in *. cbn.
    destruct (parse_row header_map row) as [r|e]; rewrite IH; cbn.
    + now rewrite <- app_assoc.
    + now rewrite <- app_assoc.
Qed.

(** [load_type_rows] on a file that exists. *)
Lemma load_present (isfile : string -> option string)
    (type_name content : string) (recs : list (nat * list string)) :
  isfile (csv_path type_name) = Some content ->
  Csv.reader (TextFile.lines content) = Ok recs ->
  load_type_rows isfile type_name =
  Ok (kept (make_header_map (Csv.fieldnames recs))
        (map snd (Csv.dict_rows recs)),
      warnings (csv_path type_name) (make_header_map (Csv.fieldnames recs)) 2
        (map snd (Csv.dict_rows recs))).
Proof.
  intros F E. unfold load_type_rows. rewrite F, E. cbn [bind].
  now rewrite load_loop_spec.
Qed.




End LoaderFacts.

Section Unresolved.

Context `{Runtime}.



Variable recs : list (nat * list string).

Local Abbreviation header_map := (make_header_map (Csv.fieldnames recs)).


(** A row of the reader is skipped with the [KeyError] for [außen] when
    that column does not resolve. *)
Lemma parse_row_no_label_column (row : Csv.DictRow) :
  resolve header_map "außen" = None ->
  parse_row header_map row =
  Raise (KeyError (ColumnNotFound "außen" (map snd header_map))).
Proof.
  intros U. unfold parse_row, get. now rewrite U.
Qed.

(** When every row is skipped the list stays empty and there is one
    warning for each row, in the order of the rows, counted from [i]. *)
Lemma all_skipped (P : Csv.DictRow -> exn -> Prop) (path : string)
    (reader : list Csv.DictRow) :
  (forall row, In row reader ->
               exists e, parse_row header_map row = Raise e /\ P row e) ->
  forall i,
  kept header_map reader = [] /\
  map w_daten (warnings path header_map i reader) = reader /\
  map w_zeile (warnings path header_map i reader)
    = seq i (List.length reader) /\
  Forall (fun w => w_path w = path /\ P (w_daten w) (w_error w))
    (warnings path header_map i reader).
Proof.
  induction reader as [|row later IH]; intros A i.
  - repeat split. constructor.
  - destruct (A row (or_introl eq_refl)) as (e & E & Pe).
    destruct (IH (fun r I => A r (or_intror I)) (S i)) as (K & D & Z & F).
    unfold kept in *. cbn. rewrite E. cbn.
    rewrite K, D, Z. repeat split. constructor; auto.
Qed.

End Unresolved.




Section OneBadRow.

Context `{Runtime}.

Variables (path : string) (header_map : list (string * string)).

Lemma kept_app (a b : list Csv.DictRow) :
  kept header_map (a ++ b) = kept header_map a ++ kept header_map b.
Proof.
  unfold kept. apply flat_map_app.
Qed.

Lemma warnings_app (a b : list Csv.DictRow) :
  forall i,
  warnings path header_map i (a ++ b) =
  warnings path header_map i a ++
  warnings path header_map (i + List.length a) b.
Proof.
  induction a as [|row a IH]; intros i; cbn.
  - now rewrite Nat.add_0_r.
  - destruct (parse_row header_map row); rewrite IH;
      now replace (S i + List.length a) with (i + S (List.length a)) by lia.
Qed.

Lemma warnings_good (rows : list Csv.DictRow) :
  Forall (fun row => exists r, parse_row header_map row = Ok r) rows ->
  forall i,
  warnings path header_map i rows = [] /\
  List.length (kept header_map rows) = List.length rows.
Proof.
  induction 1 as [|row rows (r & E) _ IH]; intros i; [split; reflexivity|].
  unfold kept in *. cbn. rewrite E. cbn.
  destruct (IH (S i)) as (W & K). now rewrite W, K.
Qed.

End OneBadRow.

(** What holds of a file with one bad row: the call returns, the rows
    before and after the bad one are all kept, in their order, and the one
    warning carries the bad row and its position among the rows that the
    reader yields, counted from 2. *)
Lemma load_one_bad_row (R : Runtime) (isfile : string -> option string)
    (type_name content : string) (recs : list (nat * list string))
    (before after : list Csv.DictRow) (bad : Csv.DictRow) (e : exn) :
  isfile (csv_path type_name) = Some content ->
  Csv.reader (TextFile.lines content) = Ok recs ->
  map snd (Csv.dict_rows recs) = before ++ bad :: after ->
  Forall (fun row =>
            exists r,
              parse_row (make_header_map (Csv.fieldnames recs)) row = Ok r)
    (before ++ after) ->
  parse_row (make_header_map (Csv.fieldnames recs)) bad = Raise e ->
  load_type_rows isfile type_name =
  Ok (kept (make_header_map (Csv.fieldnames recs)) before ++
      kept (make_header_map (Csv.fieldnames recs)) after,
      [mkWarning (csv_path type_name) (2 + List.length before) e bad]) /\
  List.length (kept (make_header_map (Csv.fieldnames recs)) before)
    = List.length before /\
  List.length (kept (make_header_map (Csv.fieldnames recs)) after)
    = List.length after.
Proof.
  intros F E Rows Good Bad.
  rewrite (load_present isfile type_name content recs F E), Rows.
  apply Forall_app in Good as [Gb Ga].
  destruct (warnings_good (csv_path type_name) _ before Gb 2) as (Wb & Kb).
  destruct (warnings_good (csv_path type_name) _ after Ga
              (S (2 + List.length before))) as (Wa & Ka).
  rewrite kept_app, warnings_app, Wb.
  change (bad :: after) with ([bad] ++ after).
  rewrite kept_app. unfold kept at 2. cbn [flat_map app warnings].
  rewrite Bad, Wa. cbn [app]. auto.
Qed.

(** C7, at a file with an empty line.  The third line of the file holds
    the row whose capacity is not a number, and the reader completes that
    record at line 3; the row is skipped and the good row is kept, but the
    warning says line 2, the position of the row among the rows that are
    not blank. *)
Theorem load_blank_line_shifts_zeile :
  nth_error (TextFile.lines Examples.blank_line_csv) 2 =
    Some ("10x1,8,abc,0.5" ++ Examples.nl)%string /\
  Csv.reader (TextFile.lines Examples.blank_line_csv) =
    Ok [(1, ["aussen"; "innen"; "cetta_max"; "cetta_pro_meter"]);
        (2, []);
        (3, ["10x1"; "8"; "abc"; "0.5"]);
        (4, ["22x1"; "20"; "3.0"; "1.0"])] /\
  load_type_rows (Examples.only Examples.blank_line_csv) "rohr" =
    Ok ([Examples.row_22x1],
        [mkWarning "/app/db/rohr.csv" 2 (ValueError "abc")
           (Csv.mkDictRow
              [("aussen", Some "10x1"); ("innen", Some "8");
               ("cetta_max", Some "abc"); ("cetta_pro_meter", Some "0.5")]
              None)]).
Proof.
  repeat split; vm_compute; reflexivity.
Qed.

(** C8. When no file backs the catalog name, [load_type_rows] returns the
    empty list and prints nothing, and so it does for a file that is
    there but has no data row: the two cannot be told apart. *)
Theorem load_missing_file (R : Runtime) (isfile : string -> option string)
    (type_name : string) :
  isfile (csv_path type_name) = None ->
  load_type_rows isfile type_name = Ok ([], []) /\
  (forall isfile' content recs,
      isfile' (csv_path type_name) = Some content ->
      Csv.reader (TextFile.lines content) = Ok recs ->
      Csv.dict_rows recs = [] ->
      load_type_rows isfile' type_name = load_type_rows isfile type_name) /\
  (forall isfile',
      isfile' (csv_path type_name) = Some EmptyString ->
      load_type_rows isfile' type_name = load_type_rows isfile type_name).
Proof.
  intros F.
  assert (L : load_type_rows isfile type_name = Ok ([], []))
    by (unfold load_type_rows; now rewrite F).
  split; [exact L|]. split.
  - intros isfile' content recs F' E D.
    rewrite L, (load_present isfile' type_name content recs F' E), D.
    reflexivity.
  - intros isfile' F'. rewrite L. unfold load_type_rows. rewrite F'.
    reflexivity.
Qed.

Lemma load_missing_file_witness :
  load_type_rows (fun _ => None) "rohr" = Ok ([], []) /\
  load_type_rows (Examples.only Examples.header_only_csv) "rohr" =
  load_type_rows (fun _ => None) "rohr" /\
  load_type_rows (Examples.only EmptyString) "rohr" =
  load_type_rows (fun _ => None) "rohr".
Proof.
  destruct (load_missing_file posix_ascii (fun _ => None) "rohr" eq_refl)
    as (L & P & Z).
  split; [exact L|]. split.
  - apply (P (Examples.only Examples.header_only_csv)
             Examples.header_only_csv
             [(1, ["außen"; "innen"; "cetta_max"; "cetta_pro_meter"])]);
      reflexivity.
  - apply Z. reflexivity.
Defined.

(** ** The order of the rows *)

(** The reader yields its records in the order of the file: their line
    numbers increase. *)
Lemma records_line_numbers (lines : list string) :
  forall self line_num recs,
  Csv.records lines self line_num = Ok recs ->
  Forall (fun r => line_num <= fst r) recs /\
  StronglySorted (fun a b => fst a < fst b) recs /\
  (Csv.state self = Csv.START_RECORD ->
   Csv.field self = EmptyString ->
   Forall (fun r => line_num < fst r) recs).
Proof.
  induction lines as [|line rest IH]; intros self n recs; cbn [Csv.records].
  - destruct (negb (String.eqb (Csv.field self) EmptyString)) eqn:Fe.
    + cbn [orb]. intros [= <-].
      split; [repeat constructor|]. split; [repeat constructor|].
      intros _ Ef. rewrite Ef in Fe. discriminate.
    + destruct (Csv.state self) eqn:St; cbn [orb]; intros [= <-];
        (split; [repeat constructor|]); (split; [repeat constructor|]);
        intros St' _; try discriminate; constructor.
  - destruct (Csv.parse_line self line) as [s1|e]; cbn [bind]; [|discriminate].
    assert (Later : forall self' recs',
               Csv.records rest self' (S n) = Ok recs' ->
               Forall (fun r => n < fst r) recs' /\
               StronglySorted (fun a b => fst a < fst b) recs').
    { intros self' recs' E. destruct (IH _ _ _ E) as (Le & So & _).
      split; [|exact So]. eapply Forall_impl; [|exact Le]. cbn. lia. }
    assert (Weak : forall recs' : list (nat * list string),
               Forall (fun r => n < fst r) recs' /\
               StronglySorted (fun a b => fst a < fst b) recs' ->
               Forall (fun r => n <= fst r) recs' /\
               StronglySorted (fun a b => fst a < fst b) recs' /\
               (Csv.state self = Csv.START_RECORD ->
                Csv.field self = EmptyString ->
                Forall (fun r => n < fst r) recs')).
    { intros recs' (Lt & So). repeat split; auto.
      eapply Forall_impl; [|exact Lt]. cbn. lia. }
    destruct (Csv.state s1) eqn:S1;
      try (intros E; apply Weak, (Later s1), E).
    destruct (Csv.records rest Csv.parse_reset (S n)) as [later|e] eqn:El;
      cbn [bind]; [|discriminate].
    intros [= <-]. apply Weak.
    destruct (IH _ _ _ El) as (_ & So & Fresh).
    specialize (Fresh eq_refl eq_refl). split.
    + constructor; [cbn; lia|].
      eapply Forall_impl; [|exact Fresh]. cbn. lia.
    + constructor; [exact So|exact Fresh].
Qed.

Lemma sorted_filter {A} (lt : A -> A -> Prop) (keep : A -> bool)
    (xs : list A) :
  StronglySorted lt xs -> StronglySorted lt (filter keep xs).
Proof.
  induction 1 as [|x xs _ IH F]; cbn; [constructor|].
  destruct (keep x); [|exact IH].
  constructor; [exact IH|].
  apply Forall_forall. intros y I. apply filter_In in I as [I _].
  revert y I. now apply Forall_forall.
Qed.

(** The rows of the [DictReader] come in the order of the file as well. *)
Lemma dict_rows_in_file_order (content : string)
    (recs : list (nat * list string)) :
  Csv.reader (TextFile.lines content) = Ok recs ->
  StronglySorted lt (map fst (Csv.dict_rows recs)).
Proof.
  intros E. apply records_line_numbers in E as (_ & So & _).
  destruct recs as [|[n names] data]; [constructor|].
  apply StronglySorted_inv in So as [So _]. cbn [Csv.dict_rows].
  rewrite map_map. cbn [fst].
  apply (sorted_filter _ (fun r => negb (Csv.is_blank (snd r)))) in So.
  induction So as [|x xs _ IH F]; cbn; constructor; [exact IH|].
  apply Forall_map. exact F.
Qed.

(** C9. The method [key] raises for every record, since it reads an
    attribute [aussen] that the record does not have; nothing orders the
    catalog: for every file of which the reader yields the records,
    [load_type_rows] returns the rows that parse in the order in which the
    reader yields them, which is the order of their lines in the file.  So
    a file in descending order is loaded in descending order, and the
    record 22x1 is selected although the record 10x1 after it would do as
    well. *)
Theorem key_raises_and_rows_keep_file_order :
  (forall r : EntryRow, key r = Raise (AttributeError "aussen")) /\
  (forall (R : Runtime) (isfile : string -> option string)
          (type_name content : string) (recs : list (nat * list string)),
      isfile (csv_path type_name) = Some content ->
      Csv.reader (TextFile.lines content) = Ok recs ->
      StronglySorted lt (map fst (Csv.dict_rows recs)) /\
      load_type_rows isfile type_name =
      Ok (kept (make_header_map (Csv.fieldnames recs))
            (map snd (Csv.dict_rows recs)),
          warnings (csv_path type_name)
            (make_header_map (Csv.fieldnames recs)) 2
            (map snd (Csv.dict_rows recs)))) /\
  load_type_rows (Examples.only Examples.unsorted_csv) "rohr" =
    Ok ([Examples.row_22x1; Examples.row_10x1], []) /\
  select [Examples.row_22x1; Examples.row_10x1] 1 =
    Some (Fit Examples.row_22x1 1) /\
  covers 1 Examples.row_10x1 = true.
Proof.
  split; [reflexivity|]. split.
  - intros R isfile type_name content recs F E.
    split; [exact (dict_rows_in_file_order content recs E)|].
    exact (load_present isfile type_name content recs F E).
  - repeat split; vm_compute; reflexivity.
Qed.

Lemma key_raises_and_rows_keep_file_order_witness :
  StronglySorted lt
    (map fst
       (Csv.dict_rows
          [(1, ["außen"; "innen"; "cetta_max"; "cetta_pro_meter"]);
           (2, ["22x1"; "20"; "3.0"; "1.0"]);
           (3, ["10x1"; "8"; "1.0"; "0.5"])])) /\
  load_type_rows (Examples.only Examples.unsorted_csv) "rohr" =
  Ok (kept
        (make_header_map
           (Csv.fieldnames
              [(1, ["außen"; "innen"; "cetta_max"; "cetta_pro_meter"]);
               (2, ["22x1"; "20"; "3.0"; "1.0"]);
               (3, ["10x1"; "8"; "1.0"; "0.5"])]))
        (map snd
           (Csv.dict_rows
              [(1, ["außen"; "innen"; "cetta_max"; "cetta_pro_meter"]);
               (2, ["22x1"; "20"; "3.0"; "1.0"]);
               (3, ["10x1"; "8"; "1.0"; "0.5"])])),
      warnings (csv_path "rohr")
        (make_header_map
           (Csv.fieldnames
              [(1, ["außen"; "innen"; "cetta_max"; "cetta_pro_meter"]);
               (2, ["22x1"; "20"; "3.0"; "1.0"]);
               (3, ["10x1"; "8"; "1.0"; "0.5"])])) 2
        (map snd
           (Csv.dict_rows
              [(1, ["außen"; "innen"; "cetta_max"; "cetta_pro_meter"]);
               (2, ["22x1"; "20"; "3.0"; "1.0"]);
               (3, ["10x1"; "8"; "1.0"; "0.5"])]))).
Proof.
  apply (proj1 (proj2 key_raises_and_rows_keep_file_order) posix_ascii
           (Examples.only Examples.unsorted_csv) "rohr" Examples.unsorted_csv
           [(1, ["außen"; "innen"; "cetta_max"; "cetta_pro_meter"]);
            (2, ["22x1"; "20"; "3.0"; "1.0"]);
            (3, ["10x1"; "8"; "1.0"; "0.5"])]).
  - reflexivity.
  - vm_compute. reflexivity.
Defined.

(** * Further properties *)

(** ** The selection engine and the numbers that are no numbers *)

Lemma leb_nan_l (y : float) : PrimFloat.leb nan y = false.
Proof.
  rewrite leb_spec. change (Prim2SF nan) with S754_nan. reflexivity.
Qed.

Lemma leb_nan_r (x : float) : PrimFloat.leb x nan = false.
Proof.
  rewrite leb_spec. change (Prim2SF nan) with S754_nan.
  unfold SFleb, SFcompare.
  destruct (Prim2SF x) as [s| s | |s m e]; try reflexivity;
    destruct s; reflexivity.
Qed.

Lemma mul_nan_l (y : float) : PrimFloat.mul nan y = nan.
Proof.
  apply Prim2SF_inj. rewrite mul_spec. change (Prim2SF nan) with S754_nan.
  reflexivity.
Qed.

Lemma mul_nan_r (x : float) : PrimFloat.mul x nan = nan.
Proof.
  apply Prim2SF_inj. rewrite mul_spec. change (Prim2SF nan) with S754_nan.
  unfold SF64mul, SFmul. destruct (Prim2SF x); reflexivity.
Qed.

Lemma add_nan_l (y : float) : PrimFloat.add nan y = nan.
Proof.
  apply Prim2SF_inj. rewrite add_spec. change (Prim2SF nan) with S754_nan.
  reflexivity.
Qed.

Lemma covers_nan (length_m : float) (r : EntryRow) :
  length_m = nan \/ cetta_pro_meter r = nan \/ cetta_max r = nan ->
  covers length_m r = false.
Proof.
  unfold covers, required. intros [-> | [-> | ->]].
  - rewrite mul_nan_l. apply leb_nan_l.
  - rewrite mul_nan_r. apply leb_nan_l.
  - rewrite add_nan_l. apply leb_nan_r.
Qed.

(** X1. A record never covers when the length, its rate or its capacity
    is a NaN; so for a NaN length every catalog that is not empty gives
    [NoFit] with its first record and a NaN requirement. *)
Theorem nan_never_fits (length_m : float) (r0 : EntryRow)
    (rest : list EntryRow) :
  (forall r,
      length_m = nan \/ cetta_pro_meter r = nan \/ cetta_max r = nan ->
      covers length_m r = false) /\
  select (r0 :: rest) nan = Some (NoFit r0 nan) /\
  (Forall (fun r => cetta_max r = nan \/ cetta_pro_meter r = nan)
     (r0 :: rest) ->
   select (r0 :: rest) length_m = Some (NoFit r0 (required length_m r0))).
Proof.
  split; [intros r; apply covers_nan|].
  assert (N : forall len rows,
             Forall (fun r => covers len r = false) rows ->
             fst (scan rows len) = None) by (intros; now apply scan_none).
  split.
  - rewrite select_cons.
    specialize (N nan (r0 :: rest)).
    destruct (scan (r0 :: rest) nan) as [[c|] q]; cbn in N.
    + assert (D : Some c = None); [|discriminate].
      apply N. apply Forall_forall. intros r _. apply covers_nan. now left.
    + unfold required. now rewrite mul_nan_l.
  - intros F. rewrite select_cons.
    specialize (N length_m (r0 :: rest)).
    destruct (scan (r0 :: rest) length_m) as [[c|] q]; cbn in N;
      [|reflexivity].
    assert (D : Some c = None); [|discriminate].
    apply N. eapply Forall_impl; [|exact F].
    cbn. intros r [E|E]; apply covers_nan; auto.
Qed.

(** X2. Rows appended to a catalog never change a fit: the selection on
    the longer catalog is the one on the shorter.  When the shorter one,
    not empty, has no fit, the longer one gives the first fit among the
    appended rows, and without one the same [NoFit] as before. *)
Theorem select_append (rows more : list EntryRow) (length_m : float) :
  rows <> [] ->
  (forall r req,
      select rows length_m = Some (Fit r req) ->
      select (rows ++ more) length_m = Some (Fit r req)) /\
  (forall ref req,
      select rows length_m = Some (NoFit ref req) ->
      select (rows ++ more) length_m =
      match scan more length_m with
      | (Some c, q) => Some (Fit c q)
      | (None, _) => Some (NoFit ref req)
      end).
Proof.
  destruct rows as [|r0 rest]; [congruence|]. intros _.
  change ((r0 :: rest) ++ more) with (r0 :: (rest ++ more)).
  rewrite !select_cons.
  assert (A : forall xs,
             scan (xs ++ more) length_m =
             match scan xs length_m with
             | (Some c, q) => (Some c, q)
             | (None, _) => scan more length_m
             end).
  { induction xs as [|x xs IH]; cbn [scan app].
    - now destruct (scan more length_m) as [[c|] q].
    - destruct (covers length_m x); [reflexivity|exact IH]. }
  change (r0 :: rest ++ more) with ((r0 :: rest) ++ more). rewrite A.
  destruct (scan (r0 :: rest) length_m) as [[c|] q]; split.
  - intros r req E. exact E.
  - intros ref req E. discriminate.
  - intros r req E. discriminate.
  - intros ref req [= <- <-].
    destruct (scan more length_m) as [[c|] q']; reflexivity.
Qed.

Lemma select_append_witness :
  Examples.catalog <> [] /\
  select (Examples.catalog ++ [Examples.row_22x1]) 2 =
  Some (Fit Examples.row_10x1 1).
Proof.
  assert (N : Examples.catalog <> []) by discriminate.
  split; [exact N|].
  exact (proj1 (select_append Examples.catalog [Examples.row_22x1] 2 N)
           Examples.row_10x1 1%float eq_refl).
Defined.

(** X3. The record that [select] reports is taken from the catalog; for a
    [Fit] the reported requirement is that of the record, is not a NaN and
    is at most the capacity of the record plus the tolerance. *)
Theorem select_result_in_catalog (rows : list EntryRow) (length_m : float)
    (v : SelectionResult) :
  select rows length_m = Some v ->
  match v with
  | Fit r req =>
      In r rows /\
      req = PrimFloat.mul length_m (cetta_pro_meter r) /\
      PrimFloat.leb req (PrimFloat.add (cetta_max r) tolerance) = true /\
      req <> nan
  | NoFit ref req =>
      In ref rows /\ req = PrimFloat.mul length_m (cetta_pro_meter ref)
  | Empty => rows = []
  end.
Proof.
  destruct rows as [|r0 rest].
  - intros [= <-]. reflexivity.
  - rewrite select_cons.
    destruct (scan (r0 :: rest) length_m) as [[c|] q] eqn:S; intros [= <-].
    + apply scan_some in S as (b & a & E & _ & C & ->).
      split; [rewrite E; apply in_elt|]. split; [reflexivity|].
      split; [exact C|]. intros N. unfold covers in C.
      rewrite N, leb_nan_l in C. discriminate.
    + split; [now left | reflexivity].
Qed.

Lemma select_result_in_catalog_witness :
  In Examples.row_10x1 Examples.catalog /\
  5%float = PrimFloat.mul 10 (cetta_pro_meter Examples.row_10x1).
Proof.
  exact (select_result_in_catalog Examples.catalog 10
           (NoFit Examples.row_10x1 5) eq_refl).
Defined.

(** ** The loader and the errors of the reader *)

Section Accounting.

Context `{Runtime}.

Variables (path : string) (header_map : list (string * string)).

Lemma warnings_facts (reader : list Csv.DictRow) :
  forall i,
  Forall (fun w =>
            w_path w = path /\
            i <= w_zeile w /\
            nth_error reader (w_zeile w - i) = Some (w_daten w) /\
            parse_row header_map (w_daten w) = Raise (w_error w))
    (warnings path header_map i reader) /\
  StronglySorted lt (map w_zeile (warnings path header_map i reader)) /\
  List.length (kept header_map reader)
  + List.length (warnings path header_map i reader)
  = List.length reader.
Proof.
  induction reader as [|row later IH]; intros i.
  - repeat split; constructor.
  - destruct (IH (S i)) as (F & So & Len).
    assert (F' : Forall (fun w =>
                           w_path w = path /\
                           i <= w_zeile w /\
                           nth_error (row :: later) (w_zeile w - i)
                           = Some (w_daten w) /\
                           parse_row header_map (w_daten w)
                           = Raise (w_error w))
                   (warnings path header_map (S i) later)).
    { eapply Forall_impl; [|exact F]. cbn beta.
      intros w (P & L & N & E). repeat split; auto; [lia|].
      replace (w_zeile w - i) with (S (w_zeile w - S i)) by lia. exact N. }
    unfold kept in *. cbn [warnings flat_map].
    destruct (parse_row header_map row) as [r|e] eqn:E; cbn [app List.length].
    + split; [exact F'|]. split; [exact So|]. lia.
    + split; [|split].
      * constructor; [|exact F']. cbn [w_path w_zeile w_daten w_error].
        rewrite Nat.sub_diag. auto.
      * cbn [map w_zeile]. constructor; [exact So|].
        apply Forall_map. eapply Forall_impl; [|exact F]. cbn beta.
        intros w (_ & L & _). cbn. lia.
      * cbn [List.length] in *. lia.
Qed.

End Accounting.



(** X5. When the reader yields the records of the file, every data row is
    either loaded or reported, never both and never neither: the numbers
    of loaded rows and of warnings add up to the number of rows of the
    reader.  Each warning carries the path of the file, the row that was
    skipped, the error that skipped it and the position of the row among
    the rows of the reader, counted from 2; the warnings come in the
    order of the rows. *)
Theorem load_accounts_for_every_row (R : Runtime)
    (isfile : string -> option string) (type_name content : string)
    (recs : list (nat * list string)) :
  isfile (csv_path type_name) = Some content ->
  Csv.reader (TextFile.lines content) = Ok recs ->
  exists rows printed,
    load_type_rows isfile type_name = Ok (rows, printed) /\
    List.length rows + List.length printed
    = List.length (Csv.dict_rows recs) /\
    Forall (fun w =>
              w_path w = csv_path type_name /\
              2 <= w_zeile w /\
              nth_error (map snd (Csv.dict_rows recs)) (w_zeile w - 2)
              = Some (w_daten w) /\
              parse_row (make_header_map (Csv.fieldnames recs)) (w_daten w)
              = Raise (w_error w)) printed /\
    StronglySorted lt (map w_zeile printed).
Proof.
  intros F E.
  eexists. eexists.
  split; [exact (load_present isfile type_name content recs F E)|].
  destruct (warnings_facts (csv_path type_name)
              (make_header_map (Csv.fieldnames recs))
              (map snd (Csv.dict_rows recs)) 2) as (Fa & So & Len).
  rewrite length_map in Len. auto.
Qed.

Lemma load_accounts_for_every_row_witness :
  exists rows printed,
    load_type_rows (Examples.only Cases.bad_second_row_csv) "rohr"
    = Ok (rows, printed) /\
    List.length rows + List.length printed
    = List.length
        (Csv.dict_rows
           [(1, ["außen"; "innen"; "cetta_max"; "cetta_pro_meter"]);
            (2, ["10x1"; "8"; "1.0"; "0.5"]);
            (3, ["15x1"; "13"; "abc"; "0.7"]);
            (4, ["22x1"; "20"; "3.0"; "1.0"])]) /\
    Forall (fun w =>
              w_path w = csv_path "rohr" /\
              2 <= w_zeile w /\
              nth_error
                (map snd
                   (Csv.dict_rows
                      [(1, ["außen"; "innen"; "cetta_max";
                            "cetta_pro_meter"]);
                       (2, ["10x1"; "8"; "1.0"; "0.5"]);
                       (3, ["15x1"; "13"; "abc"; "0.7"]);
                       (4, ["22x1"; "20"; "3.0"; "1.0"])]))
                (w_zeile w - 2)
              = Some (w_daten w) /\
              parse_row
                (make_header_map
                   (Csv.fieldnames
                      [(1, ["außen"; "innen"; "cetta_max";
                            "cetta_pro_meter"]);
                       (2, ["10x1"; "8"; "1.0"; "0.5"]);
                       (3, ["15x1"; "13"; "abc"; "0.7"]);
                       (4, ["22x1"; "20"; "3.0"; "1.0"])]))
                (w_daten w)
              = Raise (w_error w)) printed /\
    StronglySorted lt (map w_zeile printed).
Proof.
  apply (load_accounts_for_every_row posix_ascii
           (Examples.only Cases.bad_second_row_csv) "rohr"
           Cases.bad_second_row_csv
           [(1, ["außen"; "innen"; "cetta_max"; "cetta_pro_meter"]);
            (2, ["10x1"; "8"; "1.0"; "0.5"]);
            (3, ["15x1"; "13"; "abc"; "0.7"]);
            (4, ["22x1"; "20"; "3.0"; "1.0"])]).
  - reflexivity.
  - vm_compute. reflexivity.
Defined.

(** X6. When every line after the header completes one record that is not
    blank, so that the rows of the reader end at the lines 2, 3, ..., the
    number in a warning is the line of the file at which its row ends. *)
Theorem zeile_is_line_number (R : Runtime)
    (isfile : string -> option string) (type_name content : string)
    (recs : list (nat * list string)) (rows : list EntryRow)
    (printed : list Warning) :
  isfile (csv_path type_name) = Some content ->
  Csv.reader (TextFile.lines content) = Ok recs ->
  map fst (Csv.dict_rows recs) = seq 2 (List.length (Csv.dict_rows recs)) ->
  load_type_rows isfile type_name = Ok (rows, printed) ->
  Forall (fun w => In (w_zeile w, w_daten w) (Csv.dict_rows recs)) printed.
Proof.
  intros F E Lines L.
  rewrite (load_present isfile type_name content recs F E) in L.
  injection L as _ <-.
  destruct (warnings_facts (csv_path type_name)
              (make_header_map (Csv.fieldnames recs))
              (map snd (Csv.dict_rows recs)) 2) as (Fa & _ & _).
  eapply Forall_impl; [|exact Fa]. cbn beta.
  intros w (_ & Le & N & _).
  rewrite nth_error_map in N.
  destruct (nth_error (Csv.dict_rows recs) (w_zeile w - 2))
    as [[ln d]|] eqn:Nth; [|discriminate].
  cbn in N. injection N as ->.
  assert (Nl : nth_error (map fst (Csv.dict_rows recs)) (w_zeile w - 2)
               = Some ln) by (rewrite nth_error_map, Nth; reflexivity).
  rewrite Lines in Nl.
  assert (Lt : w_zeile w - 2 < List.length (Csv.dict_rows recs))
    by (apply nth_error_Some; congruence).
  rewrite nth_error_seq in Nl.
  destruct (Nat.ltb_spec (w_zeile w - 2) (List.length (Csv.dict_rows recs)));
    [|lia].
  injection Nl as <-.
  replace (S (S (w_zeile w - 2))) with (w_zeile w) in Nth by lia.
  eapply nth_error_In, Nth.
Qed.

Lemma zeile_is_line_number_witness :
  Forall (fun w =>
            In (w_zeile w, w_daten w)
              [(2, Csv.dict_row
                     ["außen"; "innen"; "cetta_max"; "cetta_pro_meter"]
                     ["10x1"; "8"; "1.0"; "0.5"]);
               (3, Csv.dict_row
                     ["außen"; "innen"; "cetta_max"; "cetta_pro_meter"]
                     ["15x1"; "13"; "abc"; "0.7"]);
               (4, Csv.dict_row
                     ["außen"; "innen"; "cetta_max"; "cetta_pro_meter"]
                     ["22x1"; "20"; "3.0"; "1.0"])])
    [mkWarning "/app/db/rohr.csv" 3 (ValueError "abc")
       (Csv.dict_row ["außen"; "innen"; "cetta_max"; "cetta_pro_meter"]
          ["15x1"; "13"; "abc"; "0.7"])].
Proof.
  apply (zeile_is_line_number posix_ascii
           (Examples.only Cases.bad_second_row_csv) "rohr"
           Cases.bad_second_row_csv
           [(1, ["außen"; "innen"; "cetta_max"; "cetta_pro_meter"]);
            (2, ["10x1"; "8"; "1.0"; "0.5"]);
            (3, ["15x1"; "13"; "abc"; "0.7"]);
            (4, ["22x1"; "20"; "3.0"; "1.0"])]
           [Examples.row_10x1; Examples.row_22x1]);
    vm_compute; reflexivity.
Defined.

(** ** Files and rows out of shape *)

Lemma parse_line_blank (line : string) :
  only_newlines line = true ->
  forall self,
  Csv.fields self = [] ->
  Csv.field self = EmptyString ->
  Csv.state self = Csv.START_RECORD \/ Csv.state self = Csv.EAT_CRNL ->
  Csv.parse_line self line = Ok Csv.parse_reset.
Proof.
  induction line as [|c line IH]; intros O [fs f st] Fs Fd St;
    cbn in Fs, Fd, St; subst fs f; cbn [Csv.parse_line].
  - destruct St as [-> | ->]; reflexivity.
  - cbn [only_newlines] in O. apply andb_prop in O as [Nc O].
    assert (E : Csv.parse_process_char (Csv.mkReader [] EmptyString st)
                  (Some c)
                = Ok (Csv.mkReader [] EmptyString Csv.EAT_CRNL)).
    { destruct St as [-> | ->]; unfold Csv.parse_process_char;
        cbn [Csv.state]; rewrite Nc; reflexivity. }
    rewrite E. cbn [bind]. apply IH; auto.
Qed.

Lemma first_line_blank (c : ascii) (rest : string) :
  Csv.is_newline c = true ->
  exists line later,
    TextFile.lines (String c rest) = line :: later /\
    only_newlines line = true /\
    Forall (fun l => line_shaped l = true) later.
Proof.
  intros Nc.
  pose proof (ReaderFacts.lines_from_shaped (String c rest) EmptyString
                eq_refl) as Sh.
  unfold TextFile.lines. cbn [TextFile.lines_from] in *.
  assert (One : only_newlines (String c EmptyString) = true)
    by (cbn; now rewrite Nc).
  destruct (Ascii.eqb c Str.LF) eqn:Elf.
  { eexists. eexists. split; [reflexivity|]. split; [exact One|].
    now inversion Sh. }
  destruct (Ascii.eqb c Str.CR) eqn:Ecr.
  2:{ unfold Csv.is_newline in Nc. rewrite Elf, Ecr in Nc. discriminate. }
  destruct rest as [|c' rest'].
  { eexists. eexists. split; [reflexivity|]. split; [exact One|].
    now inversion Sh. }
  destruct (Ascii.eqb c' Str.LF) eqn:Elf'.
  - eexists. eexists. split; [reflexivity|]. split; [|now inversion Sh].
    cbn. rewrite Nc. unfold Csv.is_newline. now rewrite Elf'.
  - eexists. eexists. split; [reflexivity|]. split; [exact One|].
    now inversion Sh.
Qed.

(** X7. A file that begins with an empty line loses its catalog: when
    the reader yields its records, the empty line is taken for the
    header, no column resolves, and every row after it, the real header
    too, is skipped with the error that names the column [außen] and an
    empty list of headers. *)
Theorem blank_first_line_loses_catalog (R : Runtime)
    (isfile : string -> option string) (type_name : string)
    (c : ascii) (rest : string) (recs : list (nat * list string)) :
  isfile (csv_path type_name) = Some (String c rest) ->
  Csv.is_newline c = true ->
  Csv.reader (TextFile.lines (String c rest)) = Ok recs ->
  exists printed,
    Csv.fieldnames recs = Some [] /\
    load_type_rows isfile type_name = Ok ([], printed) /\
    map w_daten printed = map snd (Csv.dict_rows recs) /\
    map w_zeile printed = seq 2 (List.length (Csv.dict_rows recs)) /\
    Forall (fun w => w_error w = KeyError (ColumnNotFound "außen" []))
      printed.
Proof.
  intros F Nc E.
  destruct (first_line_blank c rest Nc) as (line & later & L & O & _).
  assert (First : exists more, recs = (1, []) :: more).
  { pose proof E as E'. rewrite L in E'. unfold Csv.reader in E'.
    cbn [Csv.records] in E'.
    rewrite (parse_line_blank line O Csv.parse_reset) in E' by auto.
    cbn [bind Csv.state Csv.parse_reset] in E'.
    destruct (Csv.records later _ 1) as [more|e]; cbn [bind] in E';
      [|discriminate].
    injection E' as <-. now exists more. }
  destruct First as (more & ->).
  rewrite (load_present isfile type_name _ _ F E).
  destruct (all_skipped ((1, []) :: more)
              (fun _ e => e = KeyError (ColumnNotFound "außen" []))
              (csv_path type_name)
              (map snd (Csv.dict_rows ((1, []) :: more))))
    with (i := 2) as (K & D & Z & A).
  { intros row I. eexists. split; [|reflexivity].
    now apply (parse_row_no_label_column ((1, []) :: more) row). }
  eexists. split; [reflexivity|].
  split; [rewrite K; reflexivity|]. split; [exact D|].
  split; [now rewrite Z, length_map|].
  eapply Forall_impl; [|exact A]. cbn beta. tauto.
Qed.

Lemma blank_first_line_loses_catalog_witness :
  exists printed,
    Csv.fieldnames
      [(1, []);
       (2, ["außen"; "innen"; "cetta_max"; "cetta_pro_meter"]);
       (3, ["10x1"; "8"; "1.0"; "0.5"]);
       (4, ["22x1"; "20"; "3.0"; "1.0"])] = Some [] /\
    load_type_rows (Examples.only Cases.blank_first_line_csv) "rohr"
    = Ok ([], printed) /\
    map w_daten printed =
      map snd
        (Csv.dict_rows
           [(1, []);
            (2, ["außen"; "innen"; "cetta_max"; "cetta_pro_meter"]);
            (3, ["10x1"; "8"; "1.0"; "0.5"]);
            (4, ["22x1"; "20"; "3.0"; "1.0"])]) /\
    map w_zeile printed =
      seq 2
        (List.length
           (Csv.dict_rows
              [(1, []);
               (2, ["außen"; "innen"; "cetta_max"; "cetta_pro_meter"]);
               (3, ["10x1"; "8"; "1.0"; "0.5"]);
               (4, ["22x1"; "20"; "3.0"; "1.0"])])) /\
    Forall (fun w => w_error w = KeyError (ColumnNotFound "außen" []))
      printed.
Proof.
  apply (blank_first_line_loses_catalog posix_ascii
           (Examples.only Cases.blank_first_line_csv) "rohr"
           Str.LF Examples.rohr_csv
           [(1, []);
            (2, ["außen"; "innen"; "cetta_max"; "cetta_pro_meter"]);
            (3, ["10x1"; "8"; "1.0"; "0.5"]);
            (4, ["22x1"; "20"; "3.0"; "1.0"])]).
  - reflexivity.
  - reflexivity.
  - vm_compute. reflexivity.
Defined.

Lemma parse_row_cells `{Runtime} (header_map : list (string * string))
    (row row' : Csv.DictRow) :
  Csv.cells row = Csv.cells row' ->
  parse_row header_map row = parse_row header_map row'.
Proof.
  intros E. unfold parse_row, get_float, get, getitem. now rewrite E.
Qed.

Lemma combine_surplus {A B} (xs : list A) (ys extra : list B) :
  List.length xs <= List.length ys ->
  combine xs (ys ++ extra) = combine xs ys.
Proof.
  revert ys. induction xs as [|x xs IH]; intros [|y ys] L; cbn in *;
    try reflexivity; try lia.
  f_equal. apply IH. lia.
Qed.

(** X8. Cells beyond the last column of the header do not change what a
    row is parsed to: they are kept aside under the key [None], which
    [get] never reads. *)
Theorem surplus_cells_are_ignored (R : Runtime)
    (header_map : list (string * string))
    (names record extra : list string) :
  List.length names <= List.length record ->
  parse_row header_map (Csv.dict_row names (record ++ extra)) =
  parse_row header_map (Csv.dict_row names record).
Proof.
  intros L. apply parse_row_cells. unfold Csv.dict_row.
  rewrite (combine_surplus names record extra L), length_app.
  destruct (Nat.ltb_spec (List.length names)
              (List.length record + List.length extra));
    destruct (Nat.ltb_spec (List.length names) (List.length record));
    cbn [Csv.cells]; try reflexivity;
    destruct (Nat.ltb_spec (List.length record + List.length extra)
                (List.length names));
    destruct (Nat.ltb_spec (List.length record) (List.length names));
    cbn [Csv.cells]; try reflexivity; lia.
Qed.

Lemma surplus_cells_are_ignored_witness :
  parse_row
    (make_header_map
       (Some ["außen"; "innen"; "cetta_max"; "cetta_pro_meter"]))
    (Csv.dict_row ["außen"; "innen"; "cetta_max"; "cetta_pro_meter"]
       (["10x1"; "8"; "1.0"; "0.5"] ++ ["alt"])) =
  parse_row
    (make_header_map
       (Some ["außen"; "innen"; "cetta_max"; "cetta_pro_meter"]))
    (Csv.dict_row ["außen"; "innen"; "cetta_max"; "cetta_pro_meter"]
       ["10x1"; "8"; "1.0"; "0.5"]).
Proof.
  apply (surplus_cells_are_ignored posix_ascii). cbn. lia.
Defined.

Lemma fold_set_none (ks : list string) :
  forall (d : list (string * option string)) (h : string),
  Csv.dict_get (fold_left (fun d k => Csv.dict_set d k None) ks d) h =
  if existsb (String.eqb h) ks then Some None else Csv.dict_get d h.
Proof.
  induction ks as [|k ks IH]; intros d h; cbn [fold_left existsb].
  - reflexivity.
  - rewrite IH, DictFacts.dict_get_set, (String.eqb_sym h k).
    destruct (existsb (String.eqb h) ks); [now rewrite orb_true_r|].
    rewrite orb_false_r. reflexivity.
Qed.

(** The cell of a column for which the record is too short is [None]. *)
Lemma short_record_cell (names record : list string) (h : string) :
  In h (skipn (List.length record) names) ->
  Csv.dict_get (Csv.cells (Csv.dict_row names record)) h = Some None.
Proof.
  intros I. unfold Csv.dict_row.
  assert (L : List.length record < List.length names).
  { destruct (Nat.lt_ge_cases (List.length record) (List.length names))
      as [L|L]; [exact L|].
    rewrite skipn_all2 in I by exact L. contradiction. }
  destruct (Nat.ltb_spec (List.length names) (List.length record)); [lia|].
  destruct (Nat.ltb_spec (List.length record) (List.length names)); [|lia].
  cbn [Csv.cells]. rewrite fold_set_none.
  assert (X : existsb (String.eqb h) (skipn (List.length record) names)
              = true).
  { apply existsb_exists. exists h. split; [exact I|apply String.eqb_refl]. }
  now rewrite X.
Qed.

(** X9. A record with fewer cells than the header has columns.  In the
    runtime of the examples: a numeric column that the record does not
    reach reads as the text None and the row is skipped for it; but when
    the record lacks only the cell of the label, and its numbers parse,
    the row is loaded, with the label None. *)
Theorem short_record (header_map : list (string * string))
    (names record : list string) (h : string) :
  In h (skipn (List.length record) names) ->
  (forall logical,
      resolve header_map logical = Some h ->
      get_float header_map (Csv.dict_row names record) logical
      = Raise (ValueError "None")) /\
  (forall i m p,
      resolve header_map "außen" = Some h ->
      get_float header_map (Csv.dict_row names record) "innen" = Ok i ->
      get_float header_map (Csv.dict_row names record) "cetta_max" = Ok m ->
      get_float header_map (Csv.dict_row names record) "cetta_pro_meter"
      = Ok p ->
      parse_row header_map (Csv.dict_row names record)
      = Ok (mkEntryRow "None" i m p)).
Proof.
  intros I. pose proof (short_record_cell names record h I) as C. split.
  - intros logical Rl. unfold get_float, get, getitem. rewrite Rl, C.
    reflexivity.
  - intros i m p Ra Ei Em Ep. unfold parse_row.
    rewrite Ei, Em, Ep. unfold get, getitem. rewrite Ra, C. reflexivity.
Qed.

Lemma short_record_witness :
  load_type_rows (Examples.only Cases.short_row_csv) "rohr" =
  Ok ([Examples.row_10x1; mkEntryRow "None" 20 3 1], []) /\
  parse_row
    (make_header_map
       (Some ["innen"; "cetta_max"; "cetta_pro_meter"; "außen"]))
    (Csv.dict_row ["innen"; "cetta_max"; "cetta_pro_meter"; "außen"]
       ["20"; "3.0"; "1.0"])
  = Ok (mkEntryRow "None" 20 3 1).
Proof.
  split; [vm_compute; reflexivity|].
  apply (proj2 (short_record
                  (make_header_map
                     (Some ["innen"; "cetta_max"; "cetta_pro_meter";
                            "außen"]))
                  ["innen"; "cetta_max"; "cetta_pro_meter"; "außen"]
                  ["20"; "3.0"; "1.0"] "außen" (or_introl eq_refl)));
    vm_compute; reflexivity.
Defined.

Section HeaderMap.

Context `{Runtime}.

Lemma header_map_snoc (names : list string) (h : string) :
  make_header_map (Some (names ++ [h]))
  = Csv.dict_set (make_header_map (Some names)) (norm h) h.
Proof.
  unfold make_header_map. now rewrite fold_left_app.
Qed.

(** Under a key of [header_map] stands the last header with that
    normalised name. *)
Lemma header_map_get (names : list string) (k : string) :
  Csv.dict_get (make_header_map (Some names)) k = last_header names k.
Proof.
  induction names as [|h names IH] using rev_ind; [reflexivity|].
  rewrite header_map_snoc, DictFacts.dict_get_set, IH.
  unfold last_header. rewrite rev_app_distr. reflexivity.
Qed.

Variable accepts : string -> bool.

Lemma find_snoc {A} (f : A -> bool) (xs : list A) (x : A) :
  find f (xs ++ [x]) =
  match find f xs with
  | Some y => Some y
  | None => if f x then Some x else None
  end.
Proof.
  induction xs as [|y xs IH]; cbn; [reflexivity|].
  destruct (f y); [reflexivity|exact IH].
Qed.

(** Setting a key leaves the first accepted key where it is. *)
Lemma first_key_set (m : list (string * string)) (k v : string) :
  option_map fst (find (fun kv => accepts (fst kv)) (Csv.dict_set m k v)) =
  match option_map fst (find (fun kv => accepts (fst kv)) m) with
  | Some k' => Some k'
  | None => if accepts k then Some k else None
  end.
Proof.
  induction m as [|[k' v'] m IH]; cbn [Csv.dict_set find fst option_map].
  - destruct (accepts k); reflexivity.
  - destruct (String.eqb_spec k' k) as [->|N]; cbn [find fst].
    + destruct (accepts k) eqn:A; [reflexivity|].
      destruct (find _ m); reflexivity.
    + destruct (accepts k'); [reflexivity|exact IH].
Qed.

(** The first accepted key of [header_map] is the normalised name of the
    first header of which the normalised name is accepted. *)
Lemma header_map_first_key (names : list string) :
  option_map fst
    (find (fun kv => accepts (fst kv)) (make_header_map (Some names)))
  = option_map norm (find (fun h => accepts (norm h)) names).
Proof.
  induction names as [|h names IH] using rev_ind; [reflexivity|].
  rewrite header_map_snoc, first_key_set, IH, find_snoc.
  destruct (find _ names); cbn [option_map]; [reflexivity|].
  destruct (accepts (norm h)); reflexivity.
Qed.

End HeaderMap.

(** The second loop of [get] reads the value of the first key that
    contains the name. *)
Lemma resolve_substring_get (m : list (string * string)) (logical : string) :
  resolve_substring m logical =
  match option_map fst
          (find (fun kv =>
                   Str.contains (Str.replace "_" EmptyString logical)
                     (fst kv)) m) with
  | Some k => Csv.dict_get m k
  | None => None
  end.
Proof.
  induction m as [|[k v] m IH];
    cbn [resolve_substring find fst option_map]; [reflexivity|].
  destruct (Str.contains _ k) eqn:C; cbn [option_map fst Csv.dict_get].
  - now rewrite String.eqb_refl.
  - rewrite IH.
    destruct (find _ m) as [[k' v']|] eqn:Fd; cbn [option_map fst];
      [|reflexivity].
    apply find_some in Fd as [_ C']. cbn [fst] in C'.
    destruct (String.eqb_spec k k') as [->|N]; [congruence|reflexivity].
Qed.

Lemma resolve_substring_header (R : Runtime) (names : list string)
    (logical : string) :
  resolve_substring (make_header_map (Some names)) logical
  = by_substring names logical.
Proof.
  rewrite resolve_substring_get, header_map_first_key.
  unfold by_substring, first_containing.
  destruct (find _ names); cbn [option_map]; [|reflexivity].
  apply header_map_get.
Qed.

Lemma last_header_unique (R : Runtime) (names : list string) (h : string) :
  NoDup (map norm names) ->
  In h names ->
  last_header names (norm h) = Some h.
Proof.
  intros N I. unfold last_header.
  destruct (find _ (rev names)) as [h'|] eqn:Fd.
  - apply find_some in Fd as [I' E]. apply in_rev in I'.
    apply String.eqb_eq in E. f_equal.
    clear - N I I' E. induction names as [|x names IH]; [contradiction|].
    cbn [map] in N. apply NoDup_cons_iff in N as [Nx N].
    destruct I as [->|I], I' as [->|I']; auto.
    + exfalso. apply Nx. rewrite <- E. now apply in_map.
    + exfalso. apply Nx. rewrite E. now apply in_map.
  - pose proof (find_none _ _ Fd h (proj1 (in_rev _ _) I)) as Nn.
    cbn beta in Nn. rewrite String.eqb_refl in Nn. discriminate.
Qed.

(** X10. The header that [get] reads for each logical column, over the
    [header_map] of a header row: the last header whose normalised name is
    the logical name; else, for [außen], the last one normalised to
    [aussen], and for the two capacity columns the last one normalised to
    the name without underscores; else the search by substring.  That
    search takes the first header, in the order of the file, whose
    normalised name contains the logical name without its underscores,
    and reads the last header that has the same normalised name; when no
    two headers share a normalised name this is the header found. *)
Theorem resolve_order (R : Runtime) (names : list string) :
  resolve (make_header_map (Some names)) "außen" =
    match last_header names "außen" with
    | Some h => Some h
    | None =>
        match last_header names "aussen" with
        | Some h => Some h
        | None => by_substring names "außen"
        end
    end /\
  resolve (make_header_map (Some names)) "innen" =
    match last_header names "innen" with
    | Some h => Some h
    | None => by_substring names "innen"
    end /\
  resolve (make_header_map (Some names)) "cetta_max" =
    match last_header names "cetta_max" with
    | Some h => Some h
    | None =>
        match last_header names "cettamax" with
        | Some h => Some h
        | None => by_substring names "cetta_max"
        end
    end /\
  resolve (make_header_map (Some names)) "cetta_pro_meter" =
    match last_header names "cetta_pro_meter" with
    | Some h => Some h
    | None =>
        match last_header names "cettaprometer" with
        | Some h => Some h
        | None => by_substring names "cetta_pro_meter"
        end
    end /\
  (forall logical h,
      NoDup (map norm names) ->
      first_containing names logical = Some h ->
      by_substring names logical = Some h).
Proof.
  assert (Last : forall logical h,
             NoDup (map norm names) ->
             first_containing names logical = Some h ->
             by_substring names logical = Some h).
  { intros logical h N Fc. unfold by_substring. rewrite Fc.
    apply (last_header_unique R names h N).
    unfold first_containing in Fc. now apply find_some in Fc as [I _]. }
  unfold resolve.
  repeat match goal with
         | |- context [Str.replace ?a ?b ?c] =>
             let v := eval vm_compute in (Str.replace a b c) in
             change (Str.replace a b c) with v
         end.
  cbn [resolve_candidates].
  repeat match goal with
         | |- context [Str.replace ?a ?b ?c] =>
             let v := eval vm_compute in (Str.replace a b c) in
             change (Str.replace a b c) with v
         end.
  rewrite !header_map_get, !(resolve_substring_header R).
  repeat split.
  - destruct (last_header names "außen"); [reflexivity|].
    destruct (last_header names "aussen"); reflexivity.
  - destruct (last_header names "innen"); reflexivity.
  - destruct (last_header names "cetta_max"); [reflexivity|].
    destruct (last_header names "cettamax"); reflexivity.
  - destruct (last_header names "cetta_pro_meter"); [reflexivity|].
    destruct (last_header names "cettaprometer"); reflexivity.
  - exact Last.
Qed.

(** Of the headers [a innen] and [ainnen], which share a normalised name,
    the second is read for [innen], and the first one when it stands
    alone. *)
Example resolve_by_substring_under_collision :
  resolve (make_header_map (Some ["außen"; "a innen"; "ainnen"])) "innen"
  = Some "ainnen" /\
  resolve (make_header_map (Some ["außen"; "a innen"; "binnen"])) "innen"
  = Some "a innen".
Proof. split; vm_compute; reflexivity. Qed.

(** ** The listing of the catalogs *)

Module SortFacts.
Import OsPath.

Lemma insert_name_perm (x : string) (l : list string) :
  Permutation (insert_name x l) (x :: l).
Proof.
  induction l as [|y l IH]; cbn; [reflexivity|].
  destruct (String.leb x y); [reflexivity|].
  rewrite IH. apply perm_swap.
Qed.

Lemma sort_perm (l : list string) : Permutation (sort l) l.
Proof.
  induction l as [|x l IH]; cbn; [constructor|].
  rewrite insert_name_perm. now constructor.
Qed.

Lemma insert_name_sorted (x : string) (l : list string) :
  Sorted (fun a b => String.leb a b = true) l ->
  Sorted (fun a b => String.leb a b = true) (insert_name x l).
Proof.
  induction 1 as [|y l S IH Hd]; cbn; [repeat constructor|].
  destruct (String.leb x y) eqn:E.
  - constructor; [now constructor | now constructor].
  - constructor; [exact IH|].
    assert (Yx : String.leb y x = true)
      by (destruct (String.leb_total x y); congruence).
    destruct Hd as [|z l Hz]; cbn; [now constructor|].
    destruct (String.leb x z); now constructor.
Qed.

Lemma sort_sorted (l : list string) :
  Sorted (fun a b => String.leb a b = true) (sort l).
Proof.
  induction l as [|x l IH]; cbn; [constructor|].
  now apply insert_name_sorted.
Qed.

Lemma rfind_nat_app (c : ascii) (s t : string) :
  rfind_nat c (s ++ t) =
  match rfind_nat c t with
  | Some j => Some (String.length s + j)
  | None => rfind_nat c s
  end.
Proof.
  induction s as [|a s IH]; cbn.
  - now destruct (rfind_nat c t).
  - rewrite IH. destruct (rfind_nat c t); [reflexivity|].
    reflexivity.
Qed.

Lemma substring_prefix (s t : string) :
  String.substring 0 (String.length s) (s ++ t) = s.
Proof.
  induction s as [|a s IH]; cbn.
  - now destruct t.
  - now rewrite IH.
Qed.

(** The name is split at the dot before an extension that has no dot,
    when the name holds no separator and more than dots come before. *)
Lemma splitext_stem (sep : ascii) (altsep : option ascii)
    (stem ext : string) :
  rfind_nat sep (stem ++ "." ++ ext) = None ->
  match altsep with
  | Some a => rfind_nat a (stem ++ "." ++ ext) = None
  | None => True
  end ->
  rfind_nat "." ext = None ->
  only_dots stem = false ->
  fst (splitext sep altsep (stem ++ "." ++ ext)) = stem.
Proof.
  intros Hs Ha He Hd. unfold splitext, rfind.
  rewrite Hs.
  assert (Sep : match altsep with
                | Some a =>
                    Z.max (-1)
                      match rfind_nat a (stem ++ "." ++ ext) with
                      | Some i => Z.of_nat i
                      | None => (-1)%Z
                      end
                | None => (-1)%Z
                end = (-1)%Z).
  { destruct altsep as [a|]; [|reflexivity]. now rewrite Ha. }
  rewrite Sep.
  assert (Dot : rfind_nat "." (stem ++ "." ++ ext)
                = Some (String.length stem)).
  { rewrite rfind_nat_app. cbn. rewrite He. cbn. f_equal. lia. }
  rewrite Dot.
  assert (Sl : slice (stem ++ "." ++ ext) 0
                 (Z.of_nat (String.length stem)) = stem).
  { unfold slice. rewrite Nat2Z.id. cbn [Z.to_nat]. rewrite Nat.sub_0_r.
    apply substring_prefix. }
  change (-1 + 1)%Z with 0%Z. rewrite Sl, Hd.
  destruct (Z.ltb_spec (-1) (Z.of_nat (String.length stem))); [|lia].
  reflexivity.
Qed.

End SortFacts.

Section ListingFacts.

Context `{Runtime}.

Variables (sep : ascii) (altsep : option ascii).

Lemma list_types_present (listdir : string -> option (list string))
    (entries : list string) :
  listdir DB_DIR = Some entries ->
  list_types sep altsep listdir =
  OsPath.sort
    (map (fun fn => fst (OsPath.splitext sep altsep fn))
       (filter (fun fn => OsPath.endswith ".csv" (str_lower fn)) entries)).
Proof.
  intros E. unfold list_types. rewrite E. f_equal.
  assert (G : forall names,
             fold_left
               (fun names fn =>
                  if OsPath.endswith ".csv" (str_lower fn)
                  then names ++ [fst (OsPath.splitext sep altsep fn)]
                  else names) entries names =
             names ++
             map (fun fn => fst (OsPath.splitext sep altsep fn))
               (filter (fun fn => OsPath.endswith ".csv" (str_lower fn))
                  entries)).
  { clear E. induction entries as [|fn entries IH]; intros names;
      cbn [fold_left filter map].
    - now rewrite app_nil_r.
    - destruct (OsPath.endswith ".csv" (str_lower fn)); rewrite IH.
      + cbn [map]. now rewrite <- app_assoc.
      + reflexivity. }
  exact (G []).
Qed.

End ListingFacts.

(** X11. [list_types] returns the empty list when [DB_DIR] is no
    directory; otherwise its list is in ascending order and consists of
    the names, without extension, of the entries whose lower-cased name
    ends with .csv, one for each such entry, so that two entries with the
    same stem give that name twice. *)
Theorem list_types_sorted_stems (R : Runtime) (sep : ascii)
    (altsep : option ascii) (listdir : string -> option (list string)) :
  (listdir DB_DIR = None -> list_types sep altsep listdir = []) /\
  (forall entries,
      listdir DB_DIR = Some entries ->
      Sorted (fun a b => String.leb a b = true)
        (list_types sep altsep listdir) /\
      Permutation (list_types sep altsep listdir)
        (map (fun fn => fst (OsPath.splitext sep altsep fn))
           (filter (fun fn => OsPath.endswith ".csv" (str_lower fn))
              entries))).
Proof.
  split.
  - intros E. unfold list_types. now rewrite E.
  - intros entries E. rewrite (list_types_present sep altsep listdir _ E).
    split; [apply SortFacts.sort_sorted | apply SortFacts.sort_perm].
Qed.

(** X12. An entry [stem.ext] of the directory, without separator, with an
    extension without dot that is csv in any case, and with more than
    dots in its stem, is listed under its stem.  [load_type_rows] then
    opens the file [stem.csv]: the listed file itself when the extension
    is written in lower case. *)
Theorem listed_name_of_entry (R : Runtime) (sep : ascii)
    (altsep : option ascii) (listdir : string -> option (list string))
    (entries : list string) (stem ext : string) :
  listdir DB_DIR = Some entries ->
  In (stem ++ "." ++ ext)%string entries ->
  OsPath.endswith ".csv" (str_lower (stem ++ "." ++ ext)) = true ->
  OsPath.rfind_nat sep (stem ++ "." ++ ext) = None ->
  match altsep with
  | Some a => OsPath.rfind_nat a (stem ++ "." ++ ext) = None
  | None => True
  end ->
  OsPath.rfind_nat "." ext = None ->
  OsPath.only_dots stem = false ->
  In stem (list_types sep altsep listdir) /\
  (ext = "csv" ->
   csv_path stem = os_path_join DB_DIR (stem ++ "." ++ ext)).
Proof.
  intros E I Csv Hs Ha He Hd. split.
  - rewrite (list_types_present sep altsep listdir _ E).
    apply (Permutation_in _ (Permutation_sym (SortFacts.sort_perm _))).
    apply in_map_iff. exists (stem ++ "." ++ ext)%string. split.
    + now apply SortFacts.splitext_stem.
    + apply filter_In. auto.
  - intros ->. reflexivity.
Qed.

Lemma listed_name_of_entry_witness :
  In "ROHR" (list_types "/" None Cases.db) /\
  ("CSV" = "csv" -> csv_path "ROHR" = os_path_join DB_DIR "ROHR.CSV").
Proof.
  apply (listed_name_of_entry posix_ascii "/" None Cases.db Cases.db_entries
           "ROHR" "CSV"); try reflexivity.
  cbn. auto.
Defined.

Example list_types_of_example_directory :
  list_types "/" None Cases.db = [".csv"; "ROHR"; "kabel"; "rohr"] /\
  list_types "/" None (fun _ => None) = [] /\
  load_type_rows
    (fun path =>
       if String.eqb path "/app/db/ROHR.CSV" then Some Examples.rohr_csv
       else None) "ROHR" = Ok ([], []).
Proof. repeat split; vm_compute; reflexivity. Qed.

(** ** The handler of the button *)

Section Handler.

Context `{Runtime}.

Variables (isfile : string -> option string) (self : App).

(** The handler after its two checks of the input, by what the loader
    returns and by the outcome of the scan. *)
Lemma on_calculate_valid (length_m : float) :
  str_strip (selected_type self) <> EmptyString ->
  parse_length_to_meters (length_text self) (unit_ self) = Some length_m ->
  PrimFloat.leb length_m 0 = false ->
  on_calculate isfile self =
  match load_type_rows isfile (str_strip (selected_type self)) with
  | Raise e => Raise e
  | Ok ([], printed) =>
      Ok (showerror "Fehler" (msg_no_data (str_strip (selected_type self))),
          printed)
  | Ok (r0 :: rest, printed) =>
      match scan (r0 :: rest) length_m with
      | (Some c, req) => Ok (config (summary_ok c req) (detail_ok c), printed)
      | (None, _) =>
          Ok (config (summary_none msg_none (required length_m r0))
                (detail_none r0), printed)
      end
  end.
Proof.
  intros T P L. unfold on_calculate.
  apply String.eqb_neq in T. rewrite T, P, L.
  destruct (load_type_rows isfile _) as [[[|r0 rest] printed]|e];
    cbn [bind]; try reflexivity.
  rewrite select_best_cons.
  destruct (scan (r0 :: rest) length_m) as [[c|] req]; reflexivity.
Qed.

Lemma on_calculate_invalid :
  str_strip (selected_type self) = EmptyString \/
  parse_length_to_meters (length_text self) (unit_ self) = None \/
  (exists length_m,
      parse_length_to_meters (length_text self) (unit_ self) = Some length_m /\
      PrimFloat.leb length_m 0 = true) ->
  on_calculate isfile self =
  Ok (showerror "Fehler"
        (if String.eqb (str_strip (selected_type self)) EmptyString
         then msg_no_type else msg_bad_length), []).
Proof.
  unfold on_calculate.
  destruct (String.eqb (str_strip (selected_type self)) EmptyString) eqn:T;
    [reflexivity|].
  intros [E|[E|(l & E & L)]].
  - apply String.eqb_neq in T. contradiction.
  - now rewrite E.
  - now rewrite E, L.
Qed.

End Handler.

(** X13. An exception leaves the handler only out of [load_type_rows],
    as that exception, and then the inputs had passed both checks.  When
    the loader returns, the handler returns: the row of the result that it
    reads the label of is never [None], because [select_best] is only
    called on a list that is not empty. *)
Theorem on_calculate_raises_only_with_loader (R : Runtime)
    (isfile : string -> option string) (self : App) :
  (forall e,
      on_calculate isfile self = Raise e ->
      load_type_rows isfile (str_strip (selected_type self)) = Raise e /\
      str_strip (selected_type self) <> EmptyString /\
      exists length_m,
        parse_length_to_meters (length_text self) (unit_ self)
        = Some length_m /\
        PrimFloat.leb length_m 0 = false) /\
  (forall rows printed,
      load_type_rows isfile (str_strip (selected_type self))
      = Ok (rows, printed) ->
      exists effect printed',
        on_calculate isfile self = Ok (effect, printed')).
Proof.
  destruct (String.eqb_spec (str_strip (selected_type self)) EmptyString)
    as [T|T].
  { rewrite on_calculate_invalid by auto. split; [discriminate|eauto]. }
  destruct (parse_length_to_meters (length_text self) (unit_ self))
    as [l|] eqn:P.
  2:{ rewrite on_calculate_invalid by auto. split; [discriminate|eauto]. }
  destruct (PrimFloat.leb l 0) eqn:L.
  { rewrite on_calculate_invalid by eauto. split; [discriminate|eauto]. }
  rewrite (on_calculate_valid isfile self l T P L).
  destruct (load_type_rows isfile (str_strip (selected_type self)))
    as [[[|r0 rest] printed]|e'].
  - split; [discriminate|eauto].
  - destruct (scan (r0 :: rest) l) as [[c|] q];
      (split; [discriminate|eauto]).
  - split; [|discriminate]. intros e [= <-]. eauto.
Qed.

(** X14. The result labels are set exactly when the stripped catalog name
    is not empty, the length parses to a float that is not [<= 0], and the
    loader returns a list that is not empty; their texts are then those of
    the variant that [select] gives on that list: the fit with its record
    and requirement, or the failed search with the first record, never the
    variant of the empty catalog. *)
Theorem on_calculate_shows_selection (R : Runtime)
    (isfile : string -> option string) (self : App)
    (lbl_summary lbl_detail : list piece) (printed : list Warning) :
  on_calculate isfile self = Ok (config lbl_summary lbl_detail, printed) <->
  str_strip (selected_type self) <> EmptyString /\
  exists length_m rows,
    parse_length_to_meters (length_text self) (unit_ self) = Some length_m /\
    PrimFloat.leb length_m 0 = false /\
    load_type_rows isfile (str_strip (selected_type self))
    = Ok (rows, printed) /\
    rows <> [] /\
    match select rows length_m with
    | Some (Fit r req) =>
        lbl_summary = summary_ok r req /\ lbl_detail = detail_ok r
    | Some (NoFit ref req) =>
        lbl_summary = summary_none msg_none req /\
        lbl_detail = detail_none ref
    | _ => False
    end.
Proof.
  split.
  - intros E.
    destruct (String.eqb_spec (str_strip (selected_type self)) EmptyString)
      as [T|T].
    { rewrite on_calculate_invalid in E by auto. discriminate. }
    destruct (parse_length_to_meters (length_text self) (unit_ self))
      as [l|] eqn:P.
    2:{ rewrite on_calculate_invalid in E by auto. discriminate. }
    destruct (PrimFloat.leb l 0) eqn:L.
    { rewrite on_calculate_invalid in E by eauto. discriminate. }
    rewrite (on_calculate_valid isfile self l T P L) in E.
    split; [exact T|]. exists l.
    destruct (load_type_rows isfile _) as [[[|r0 rest] pr]|e];
      try discriminate.
    exists (r0 :: rest). rewrite select_cons.
    destruct (scan (r0 :: rest) l) as [[c|] q]; injection E as <- <- <-;
      repeat split; try assumption; try reflexivity; discriminate.
  - intros (T & l & rows & P & L & Ld & N & S).
    rewrite (on_calculate_valid isfile self l T P L), Ld.
    destruct rows as [|r0 rest]; [congruence|].
    rewrite select_cons in S.
    destruct (scan (r0 :: rest) l) as [[c|] q]; destruct S as [-> ->];
      reflexivity.
Qed.

(** X15. When the stripped catalog name is empty, or the length does not
    parse or is [<= 0], the handler shows its error box without reading
    any file: the outcome is the same in every file system, and nothing
    is printed.  The check of the catalog name comes first. *)
Theorem on_calculate_rejects_before_loading (R : Runtime) (self : App) :
  str_strip (selected_type self) = EmptyString \/
  parse_length_to_meters (length_text self) (unit_ self) = None \/
  (exists length_m,
      parse_length_to_meters (length_text self) (unit_ self) = Some length_m /\
      PrimFloat.leb length_m 0 = true) ->
  forall isfile,
    on_calculate isfile self =
    Ok (showerror "Fehler"
          (if String.eqb (str_strip (selected_type self)) EmptyString
           then msg_no_type else msg_bad_length), []).
Proof.
  intros C isfile. now apply on_calculate_invalid.
Qed.

Lemma on_calculate_rejects_before_loading_witness :
  on_calculate (Examples.only Examples.rohr_csv) (mkApp "rohr" "-1" "m") =
  Ok (showerror "Fehler" msg_bad_length, []).
Proof.
  apply (on_calculate_rejects_before_loading posix_ascii
           (mkApp "rohr" "-1" "m")).
  right. right. exists (-1)%float. split; vm_compute; reflexivity.
Defined.

(** X16. A NaN passes the check of the length, since a NaN is not
    [<= 0]: when the length text parses to a NaN and the catalog has a
    row, the handler shows the failed search, with the first row and a NaN
    requirement, whatever the capacities are. *)
Theorem on_calculate_accepts_nan (R : Runtime)
    (isfile : string -> option string) (self : App)
    (r0 : EntryRow) (rest : list EntryRow) (printed : list Warning) :
  str_strip (selected_type self) <> EmptyString ->
  parse_length_to_meters (length_text self) (unit_ self) = Some nan ->
  load_type_rows isfile (str_strip (selected_type self))
  = Ok (r0 :: rest, printed) ->
  on_calculate isfile self =
  Ok (config (summary_none msg_none nan) (detail_none r0), printed).
Proof.
  intros T P Ld.
  rewrite (on_calculate_valid isfile self nan T P (leb_nan_l 0)), Ld.
  assert (N : fst (scan (r0 :: rest) nan) = None).
  { apply scan_none, Forall_forall. intros r _. apply covers_nan. now left. }
  destruct (scan (r0 :: rest) nan) as [[c|] q]; cbn in N; [discriminate|].
  unfold required. now rewrite mul_nan_l.
Qed.

Lemma on_calculate_accepts_nan_witness :
  on_calculate (Examples.only Examples.rohr_csv) (mkApp " rohr " "nan" "m") =
  Ok (config (summary_none msg_none nan) (detail_none Examples.row_10x1), []).
Proof.
  apply (on_calculate_accepts_nan posix_ascii
           (Examples.only Examples.rohr_csv) (mkApp " rohr " "nan" "m")
           Examples.row_10x1 [Examples.row_22x1] []).
  - discriminate.
  - vm_compute. reflexivity.
  - vm_compute. reflexivity.
Defined.

(** ** Headers with the same normalised name *)

(** X17. When several headers have the logical name as their normalised
    name, the column of the last of them is read: a later entry of the
    dict comprehension replaces the earlier one, and the exact match is
    tried before every other. *)
Theorem resolve_last_exact_header (R : Runtime)
    (before after : list string) (h logical : string) :
  norm h = logical ->
  Forall (fun x => norm x <> logical) after ->
  resolve (make_header_map (Some (before ++ h :: after))) logical = Some h.
Proof.
  intros <- A.
  assert (G : Csv.dict_get (make_header_map (Some (before ++ h :: after)))
                (norm h) = Some h).
  { unfold make_header_map. rewrite fold_left_app. cbn [fold_left].
    generalize (fold_left (fun m x => Csv.dict_set m (norm x) x) before []).
    intros m.
    assert (S : Csv.dict_get (Csv.dict_set m (norm h) h) (norm h) = Some h)
      by (rewrite DictFacts.dict_get_set; now rewrite String.eqb_refl).
    revert S. generalize (Csv.dict_set m (norm h) h). clear m.
    induction A as [|x after Nx _ IH]; intros m S; cbn [fold_left].
    - exact S.
    - apply IH. rewrite DictFacts.dict_get_set.
      apply String.eqb_neq in Nx. now rewrite Nx. }
  unfold resolve. cbn [resolve_candidates]. now rewrite G.
Qed.

Lemma resolve_last_exact_header_witness :
  resolve (make_header_map (Some (["innen"; "außen"] ++ "Innen " :: [])))
    "innen" = Some "Innen ".
Proof.
  apply (resolve_last_exact_header posix_ascii ["innen"; "außen"] []
           "Innen " "innen").
  - reflexivity.
  - constructor.
Defined.

(** ** The order of the catalog *)

(** X18. The order of the catalog matters only between records that fit:
    when every record that covers its requirement is the same record [r],
    and there is one, every reordering of the catalog selects [r] with the
    same requirement. *)
Theorem select_unique_fit_any_order (rows rows' : list EntryRow)
    (length_m : float) (r : EntryRow) :
  In r rows ->
  covers length_m r = true ->
  (forall x, In x rows -> covers length_m x = true -> x = r) ->
  Permutation rows rows' ->
  select rows' length_m = Some (Fit r (required length_m r)) /\
  select rows length_m = Some (Fit r (required length_m r)).
Proof.
  intros I C U P.
  assert (G : forall l,
             Permutation rows l ->
             select l length_m = Some (Fit r (required length_m r))).
  { intros l Pl.
    assert (Il : In r l) by (eapply Permutation_in; eauto).
    destruct l as [|x l]; [contradiction|].
    rewrite select_cons.
    destruct (scan (x :: l) length_m) as [[c|] q] eqn:S.
    - apply scan_some in S as (b & a & E & _ & Cc & ->).
      assert (c = r); [|now subst].
      apply U; [|exact Cc].
      apply (Permutation_in _ (Permutation_sym Pl)).
      rewrite E. apply in_elt.
    - assert (N : fst (scan (x :: l) length_m) = None) by now rewrite S.
      apply scan_none in N. rewrite Forall_forall in N.
      specialize (N r Il). congruence. }
  split; [now apply G | apply G; reflexivity].
Qed.

Lemma select_unique_fit_any_order_witness :
  select [Examples.row_22x1; Examples.row_10x1] 3 =
    Some (Fit Examples.row_22x1 (required 3 Examples.row_22x1)) /\
  select Examples.catalog 3 =
    Some (Fit Examples.row_22x1 (required 3 Examples.row_22x1)).
Proof.
  apply (select_unique_fit_any_order Examples.catalog
           [Examples.row_22x1; Examples.row_10x1] 3 Examples.row_22x1).
  - cbn. auto.
  - reflexivity.
  - intros x [<-|[<-|[]]] Cx; [discriminate Cx | reflexivity].
  - apply perm_swap.
Defined.
